(** * nextJs-enterprise-scaffold: environment loader and API client

    A shallow embedding of [src/env.ts] (the typed environment
    configuration) and [src/lib/api-client.ts] (the singleton Axios
    instance with its interceptors), together with the properties the
    specification states about them.

    JavaScript objects used as string-keyed dictionaries ([process.env],
    [localStorage], the header bag of a request, the object literal handed
    to [createEnv]) are finite maps [gmap string string]; a property whose
    value is [undefined] and a property that is missing read the same way
    in all the code below, so both are the absence of the key. *)

From stdpp Require Import gmap strings list fin_maps pretty.

Set Warnings "-clear-no-such-hyp".

(** ** JavaScript values as the two files use them *)

Module Js.

(** [ToBoolean] on a value of type [string | undefined | null]: only the
    empty string and the missing value are falsy. *)
Definition truthy (v : option string) : bool :=
  match v with
  | Some s => bool_decide (s ≠ "")
  | None => false
  end.

(** The string a truthy [string | undefined | null] holds: what the
    branch [if (v) { ... v ... }] works with. *)
Definition truthy_string (v : option string) : option string :=
  match v with
  | Some s => if truthy v then Some s else None
  | None => None
  end.

(** A [string | undefined] interpolated into a template literal. *)
Definition template (v : option string) : string :=
  default "undefined" v.

(** A [number | undefined] interpolated into a template literal; HTTP
    status codes are integers, printed in decimal. *)
Definition template_number (v : option Z) : string :=
  match v with
  | Some n => pretty n
  | None => "undefined"
  end.

(** [new Error(message)]. *)
Record Error := { message : string }.

(** How a synchronous call ends. *)
Inductive completion (A : Type) :=
| Normal (a : A)
| Throw (e : Error).
Arguments Normal {A} a.
Arguments Throw {A} e.

End Js.

(** ** Zod schemas

    [zod] is a dependency of the repository, embedded here as far as
    [env.ts] uses it. [env.ts] builds its rules from the combinators [z.string()],
    [.url()], [.min(n)], [z.enum([...])], [.optional()] and [.default(d)].
    Parsing one value yields the parsed value or the list of issues found;
    parsing an object runs every key of the shape and gathers the issues of
    all of them, each tagged with the key it came from. *)

Module Zod.

Inductive check :=
| Url
| Min (n : nat).

Inductive schema :=
| ZString (checks : list check)
| ZEnum (values : list string)
| ZOptional (inner : schema)
| ZDefault (inner : schema) (value : string).

(** What an issue complains about: a missing value where one is
    required, a string that is not a URL, a string that is too short, a
    value outside an enumeration. *)
Inductive issue_kind :=
| Required
| NotAUrl
| TooShort
| NotInEnum.

(** An issue of an object parse: the key it is about and its kind. *)
Definition issue : Type := string * issue_kind.

Inductive result :=
| Ok (value : option string)
| Err (kinds : list issue_kind).

Definition shape := list (string * schema).

Inductive parsed :=
| Success (data : gmap string string)
| Failure (issues : list issue).

Section Parse.
(** Whether [new URL(s)] accepts [s]; the WHATWG URL parser is outside
    this development and stays a parameter. *)
Variable is_url : string → bool.

Definition check_fails (v : string) (c : check) : option issue_kind :=
  match c with
  | Url => if is_url v then None else Some NotAUrl
  | Min n => if decide (n ≤ String.length v) then None else Some TooShort
  end.

(** A string schema runs all of its checks and reports every failing
    one; a missing input is a type error. *)
Fixpoint parse (s : schema) (input : option string) : result :=
  match s with
  | ZString checks =>
      match input with
      | None => Err [Required]
      | Some v =>
          match omap (check_fails v) checks with
          | [] => Ok (Some v)
          | kinds => Err kinds
          end
      end
  | ZEnum values =>
      match input with
      | None => Err [Required]
      | Some v =>
          if bool_decide (v ∈ values) then Ok (Some v)
          else Err [NotInEnum]
      end
  | ZOptional inner =>
      match input with
      | None => Ok None
      | Some _ => parse inner input
      end
  | ZDefault inner value =>
      match input with
      | None => parse inner (Some value)
      | Some _ => parse inner input
      end
  end.

(** The issues of one key of an object shape. *)
Definition issues_at (input : gmap string string) (field : string * schema)
  : list issue :=
  match parse field.2 (input !! field.1) with
  | Ok _ => []
  | Err kinds => (λ kind, (field.1, kind)) <$> kinds
  end.

(** The output property of one key: set when the parsed value is
    defined, left out otherwise. *)
Definition output_at (input : gmap string string)
    (data : gmap string string) (field : string * schema)
  : gmap string string :=
  match parse field.2 (input !! field.1) with
  | Ok (Some v) => <[field.1 := v]> data
  | _ => data
  end.

(** [z.object(shape).safeParse(input)]: every key of the shape is
    parsed (keys outside the shape are stripped), and the parse fails
    with the issues of all keys as soon as there is one. *)
Definition safeParse (sh : shape) (input : gmap string string) : parsed :=
  match mbind (M := list) (issues_at input) sh with
  | [] => Success (foldl (output_at input) ∅ sh)
  | issues => Failure issues
  end.

End Parse.

End Zod.

(** ** The console

    Both files report through [console.error]; a call is recorded with its
    argument list, oldest call first. *)

Module Console.

Inductive arg :=
| Str (s : string)
| Issues (issues : list Zod.issue).

Definition entry := list arg.
Definition t := list entry.

(** Code that may log and may throw. *)
Definition Eff (A : Type) : Type := t → Js.completion A * t.

Definition ret {A} (a : A) : Eff A := λ c, (Js.Normal a, c).

Definition bind {A B} (m : Eff A) (k : A → Eff B) : Eff B := λ c,
  match m c with
  | (Js.Normal a, c') => k a c'
  | (Js.Throw e, c') => (Js.Throw e, c')
  end.

Definition throw {A} (e : Js.Error) : Eff A := λ c, (Js.Throw e, c).

Definition error (args : entry) : Eff unit := λ c, (Js.Normal (), c ++ [args]).

End Console.

Global Instance eff_ret : MRet Console.Eff := @Console.ret.
Global Instance eff_bind : MBind Console.Eff := λ A B k m, Console.bind m k.

(** ** [createEnv] of [@t3-oss/env-nextjs]

    The library function [env.ts] calls, a dependency of the repository
    embedded here after the library's behaviour; [isServer] stands for its
    test [typeof window === "undefined"]. With [emptyStringAsUndefined] it
    first deletes every property of the [runtimeEnv] object whose value is
    the empty string. With [skipValidation] it then returns that object as
    it is. Otherwise it parses the object against the server and client
    rules merged (on the server) or the client rules alone (in a browser,
    where [window] exists); a failed parse is reported on the console and
    ends in a thrown [Error]; a successful one is wrapped in a [Proxy]
    that refuses reads of server-side names in a browser. *)

Module T3Env.

Record options := {
  server : Zod.shape;
  client : Zod.shape;
  runtimeEnv : gmap string string;
  skipValidation : bool;
  emptyStringAsUndefined : bool;
}.

(** What [createEnv] returns: the [runtimeEnv] object itself when
    validation is skipped, the proxy over the parsed data otherwise. *)
Inductive ResolvedConfig :=
| Unvalidated (obj : gmap string string)
| Validated (isServer : bool) (data : gmap string string).

(** The own properties of the config object. *)
Definition fields (cfg : ResolvedConfig) : gmap string string :=
  match cfg with
  | Unvalidated obj => obj
  | Validated _ data => data
  end.

Definition CLIENT_PREFIX : string := "NEXT_PUBLIC_".

Definition isServerAccess (prop : string) : bool :=
  negb (String.prefix CLIENT_PREFIX prop).

Definition ignoreProp (prop : string) : bool :=
  bool_decide (prop = "__esModule") || bool_decide (prop = "$$typeof").

(** Reading [env.prop], for the names the two files read: an own property
    or a name the object does not have. Names the object inherits from
    [Object.prototype] ([toString], [constructor], ...) hold functions and
    are outside this reading. *)
Definition get (cfg : ResolvedConfig) (prop : string)
  : Js.completion (option string) :=
  match cfg with
  | Unvalidated obj => Js.Normal (obj !! prop)
  | Validated isServer data =>
      if ignoreProp prop then Js.Normal None
      else if negb (isServer || negb (isServerAccess prop)) then
        Js.Throw {| Js.message :=
          "❌ Attempted to access a server-side environment variable on the client" |}
      else Js.Normal (data !! prop)
  end.

Definition dropEmptyStrings (obj : gmap string string) : gmap string string :=
  filter (λ kv, kv.2 ≠ "") obj.

Definition invalid_label : string := "❌ Invalid environment variables:".
Definition invalid_error : Js.Error :=
  {| Js.message := "Invalid environment variables" |}.

Section CreateEnv.
Variable is_url : string → bool.

Definition createEnv (isServer : bool) (opts : options)
  : Console.Eff ResolvedConfig :=
  let runtimeEnv :=
    if emptyStringAsUndefined opts then dropEmptyStrings (runtimeEnv opts)
    else runtimeEnv opts in
  if skipValidation opts then mret (Unvalidated runtimeEnv)
  else
    let sh := if isServer then server opts ++ client opts else client opts in
    match Zod.safeParse is_url sh runtimeEnv with
    | Zod.Failure issues =>
        Console.error [Console.Str invalid_label; Console.Issues issues];;
        Console.throw invalid_error
    | Zod.Success data => mret (Validated isServer data)
    end.

End CreateEnv.

End T3Env.

(** ** [src/env.ts] *)

Module Env.

Definition server : Zod.shape :=
  [ ("NODE_ENV",
     Zod.ZDefault (Zod.ZEnum ["development"; "test"; "production"]) "development");
    ("DATABASE_URL", Zod.ZOptional (Zod.ZString [Zod.Url]));
    ("API_SECRET_KEY", Zod.ZOptional (Zod.ZString [Zod.Min 1])) ].

Definition client : Zod.shape :=
  [ ("NEXT_PUBLIC_API_URL", Zod.ZOptional (Zod.ZString [Zod.Url]));
    ("NEXT_PUBLIC_APP_NAME", Zod.ZDefault (Zod.ZString []) "NES App") ].

(** [{ KEY: process.env.KEY }] as one property of an object literal. *)
Definition prop (process_env : gmap string string) (key : string)
    (obj : gmap string string) : gmap string string :=
  match process_env !! key with
  | Some v => <[key := v]> obj
  | None => obj
  end.

(** The [runtimeEnv] object literal: the five names, each read from
    [process.env]. *)
Definition runtimeEnv (process_env : gmap string string) : gmap string string :=
  prop process_env "NEXT_PUBLIC_APP_NAME"
    (prop process_env "NEXT_PUBLIC_API_URL"
      (prop process_env "API_SECRET_KEY"
        (prop process_env "DATABASE_URL"
          (prop process_env "NODE_ENV" ∅)))).

Definition declared : list string :=
  [ "NODE_ENV"; "DATABASE_URL"; "API_SECRET_KEY";
    "NEXT_PUBLIC_API_URL"; "NEXT_PUBLIC_APP_NAME" ].

Definition options (process_env : gmap string string) (skipValidation : bool)
  : T3Env.options :=
  {| T3Env.server := server;
     T3Env.client := client;
     T3Env.runtimeEnv := runtimeEnv process_env;
     T3Env.skipValidation := skipValidation;
     T3Env.emptyStringAsUndefined := true |}.

(** The rules [createEnv] checks: both groups on the server, the client
    group alone in a browser. *)
Definition checked (isServer : bool) : Zod.shape :=
  if isServer then server ++ client else client.

(** A stand-in for the URL test on which examples run: a string that
    starts with an http or https scheme. *)
Definition sample_is_url (s : string) : bool :=
  String.prefix "http://" s || String.prefix "https://" s.

Section Load.
Variable is_url : string → bool.

(** The loader in a given execution context: [createEnv] applied to
    the options of [env.ts], with the raw environment and the skip
    flag as its two inputs. *)
Definition load_in (isServer : bool) (rawEnv : gmap string string)
    (skipValidation : bool) : Console.Eff T3Env.ResolvedConfig :=
  T3Env.createEnv is_url isServer (options rawEnv skipValidation).

(** The loader at process start-up, on the server, where every rule of
    both groups is checked. *)
Definition load (rawEnv : gmap string string) (skipValidation : bool)
  : Console.Eff T3Env.ResolvedConfig :=
  load_in true rawEnv skipValidation.

(** The exported [env]: the skip flag is
    [!!process.env.SKIP_ENV_VALIDATION]. *)
Definition env (isServer : bool) (process_env : gmap string string)
  : Console.Eff T3Env.ResolvedConfig :=
  load_in isServer process_env (Js.truthy (process_env !! "SKIP_ENV_VALIDATION")).

(** The raw environment as the rules see it: the five declared names,
    blank values dropped. *)
Definition seen (rawEnv : gmap string string) : gmap string string :=
  T3Env.dropEmptyStrings (runtimeEnv rawEnv).

(** A name of the shape whose rule rejects what the loader sees for
    it. *)
Definition violates (sh : Zod.shape) (rawEnv : gmap string string)
    (name : string) : bool :=
  existsb (λ field : string * Zod.schema,
             bool_decide (field.1 = name) &&
             match Zod.parse is_url field.2 (seen rawEnv !! name) with
             | Zod.Err _ => true
             | Zod.Ok _ => false
             end) sh.

End Load.

End Env.

(** ** Axios, as far as [api-client.ts] uses it *)

Module Axios.

(** [InternalAxiosRequestConfig]: what request interceptors receive. *)
Record InternalAxiosRequestConfig := {
  url : option string;
  method : option string;
  baseURL : option string;
  data : option string;
  timeout : Z;
  headers : gmap string string;
}.

Record AxiosResponse := {
  status : Z;
  statusText : string;
  body : string;
}.

Record AxiosError := {
  message : string;
  config : option InternalAxiosRequestConfig;
  response : option AxiosResponse;
}.

(** A settled promise. *)
Inductive promise (A : Type) :=
| Resolved (value : A)
| Rejected (reason : AxiosError).
Arguments Resolved {A} value.
Arguments Rejected {A} reason.

(** The instance [axios.create] returns, by its [defaults]: the base URL
    and timeout of the instance config, the string entries at the top
    level of [defaults.headers], which are the headers of the instance
    config, and the entries of [defaults.headers.common], which axios
    merges in from its own defaults. *)
Record AxiosInstance := {
  default_baseURL : string;
  default_timeout : Z;
  default_headers : gmap string string;
  default_headers_common : gmap string string;
}.

(** The common headers of the library's own defaults. *)
Definition library_common_headers : gmap string string :=
  {[ "Accept" := "application/json, text/plain, */*" ]}.

Definition create (baseURL : string) (timeout : Z)
    (headers : gmap string string) : AxiosInstance :=
  {| default_baseURL := baseURL;
     default_timeout := timeout;
     default_headers := headers;
     default_headers_common := library_common_headers |}.

(** [config.headers.NAME = value]. *)
Definition set_header (name value : string) (config : InternalAxiosRequestConfig)
  : InternalAxiosRequestConfig :=
  {| url := url config;
     method := method config;
     baseURL := baseURL config;
     data := data config;
     timeout := timeout config;
     headers := <[name := value]> (headers config) |}.

End Axios.

(** ** [src/lib/api-client.ts] *)

Module ApiClient.

(** The browser globals the module touches: [window] exists only in a
    browser, and with it [localStorage]. *)
Record Window := { localStorage : gmap string string }.

Definition production_error : Js.Error :=
  {| Js.message :=
       "NEXT_PUBLIC_API_URL is required in production. " +:+
       "Add it to your environment variables." |}.

Definition dev_fallback : string := "http://localhost:3000/api".

(** [getBaseURL]. [env.NEXT_PUBLIC_API_URL] is read through the config's
    getter (the test and the [return] read the same value);
    [process.env.NODE_ENV] is read from the raw process environment and
    compared with [===]. *)
Definition getBaseURL (env : T3Env.ResolvedConfig)
    (process_env : gmap string string) : Js.completion string :=
  match T3Env.get env "NEXT_PUBLIC_API_URL" with
  | Js.Throw e => Js.Throw e
  | Js.Normal api_url =>
      match Js.truthy_string api_url with
      | Some u => Js.Normal u
      | None =>
          if bool_decide (process_env !! "NODE_ENV" = Some "production")
          then Js.Throw production_error
          else Js.Normal dev_fallback
      end
  end.

(** Construction of the singleton: [axios.create] with the resolved base
    URL, the ten-second timeout and the JSON content type. *)
Definition apiClient (env : T3Env.ResolvedConfig)
    (process_env : gmap string string) : Js.completion Axios.AxiosInstance :=
  match getBaseURL env process_env with
  | Js.Throw e => Js.Throw e
  | Js.Normal baseURL =>
      Js.Normal (Axios.create baseURL 10000
                   {[ "Content-Type" := "application/json" ]})
  end.

(** The request interceptor's first handler. *)
Definition request_fulfilled (window : option Window)
    (config : Axios.InternalAxiosRequestConfig)
  : Axios.InternalAxiosRequestConfig :=
  match window with
  | Some w =>
      let token := localStorage w !! "auth_token" in
      match Js.truthy_string token with
      | Some t => Axios.set_header "Authorization" ("Bearer " +:+ t) config
      | None => config
      end
  | None => config
  end.

(** The request interceptor's second handler. *)
Definition request_rejected (error : Axios.AxiosError)
  : Console.t → Axios.promise Axios.InternalAxiosRequestConfig * Console.t :=
  λ c, (Axios.Rejected error,
        c ++ [[Console.Str "[API Request Error]";
               Console.Str (Axios.message error)]]).

(** The response interceptor's first handler. *)
Definition response_fulfilled (response : Axios.AxiosResponse)
  : Axios.AxiosResponse := response.

(** What the [switch] of the response interceptor logs. *)
Definition response_log (error : Axios.AxiosError) : Console.entry :=
  let status := Axios.status <$> Axios.response error in
  let url := Axios.config error ≫= Axios.url in
  if bool_decide (status = Some 401%Z) then
    [Console.Str ("[401 Unauthorized] " +:+ Js.template url)]
  else if bool_decide (status = Some 403%Z) then
    [Console.Str ("[403 Forbidden] " +:+ Js.template url)]
  else if bool_decide (status = Some 404%Z) then
    [Console.Str ("[404 Not Found] " +:+ Js.template url)]
  else if bool_decide (status = Some 500%Z) then
    [Console.Str ("[500 Server Error] " +:+ Js.template url)]
  else
    [Console.Str ("[API Error " +:+ Js.template_number status +:+ "] " +:+
                  Js.template url);
     Console.Str (Axios.message error)].

(** The response interceptor's second handler: log, then
    [Promise.reject(error)]. *)
Definition response_rejected (error : Axios.AxiosError)
  : Console.t → Axios.promise Axios.AxiosResponse * Console.t :=
  λ c, (Axios.Rejected error, c ++ [response_log error]).

End ApiClient.

(** ** Sample inputs *)

Module Sample.

Definition users_request : Axios.InternalAxiosRequestConfig :=
  {| Axios.url := Some "/users";
     Axios.method := Some "get";
     Axios.baseURL := Some "http://localhost:3000/api";
     Axios.data := None;
     Axios.timeout := 10000;
     Axios.headers := {[ "Content-Type" := "application/json" ]} |}.

Definition browser_with_token : ApiClient.Window :=
  {| ApiClient.localStorage := {[ "auth_token" := "abc123" ]} |}.

Definition not_found : Axios.AxiosError :=
  {| Axios.message := "Request failed with status code 404";
     Axios.config := Some users_request;
     Axios.response := Some {| Axios.status := 404;
                               Axios.statusText := "Not Found";
                               Axios.body := "" |} |}.

(** Three violated rules and one name the schema does not know. *)
Definition broken_env : gmap string string :=
  {[ "NODE_ENV" := "staging";
     "DATABASE_URL" := "not a url";
     "NEXT_PUBLIC_API_URL" := "localhost";
     "EDITOR" := "vi" ]}.

End Sample.

(** ** Module start-up

    Evaluating [api-client.ts] first evaluates its import [@/env], which
    runs the loader; the client is then built from the loaded config and
    the raw process environment. An error thrown by either step ends the
    evaluation. *)

Module Startup.

Section Init.
Variable is_url : string → bool.

Definition init (isServer : bool) (process_env : gmap string string)
  : Console.Eff Axios.AxiosInstance :=
  env ← Env.env is_url isServer process_env;
  match ApiClient.apiClient env process_env with
  | Js.Throw e => Console.throw e
  | Js.Normal client => mret client
  end.

End Init.

End Startup.

(** ** The loader with its objects in a store

    [createEnv] works on objects by reference. It deletes the blank
    properties of the [runtimeEnv] object it was given, in place; with
    [skipValidation] it returns that very object; otherwise the parsed data
    is a new object, and the config is a proxy over it. [env.ts] hands it
    an object literal, a new object on every evaluation, whose properties
    are read from [process.env]. The state a call can reach is therefore
    the process environment, the objects allocated so far and the console;
    an object is named by its position in the store. *)

Module Store.

Record world := {
  process_env : gmap string string;
  objects : list (gmap string string);
  console : Console.t;
}.

(** What a call returns: the object itself, or a proxy over an object. *)
Inductive config_ref :=
| RawObject (obj : nat)
| ProxyOver (isServer : bool) (target : nat).

Definition object_at (w : world) (obj : nat) : gmap string string :=
  default ∅ (objects w !! obj).

(** A new object with the given properties. *)
Definition new_object (props : gmap string string) (w : world) : nat * world :=
  (length (objects w),
   {| process_env := process_env w;
      objects := objects w ++ [props];
      console := console w |}).

(** Replacing the properties of an object in place. *)
Definition write (obj : nat) (props : gmap string string) (w : world) : world :=
  {| process_env := process_env w;
     objects := <[obj := props]> (objects w);
     console := console w |}.

Definition log (args : Console.entry) (w : world) : world :=
  {| process_env := process_env w;
     objects := objects w;
     console := console w ++ [args] |}.

Section CreateEnv.
Variable is_url : string → bool.

Definition createEnv (isServer : bool) (server client : Zod.shape)
    (runtimeEnv : nat) (skipValidation emptyStringAsUndefined : bool)
    (w : world) : Js.completion config_ref * world :=
  let w :=
    if emptyStringAsUndefined
    then write runtimeEnv (T3Env.dropEmptyStrings (object_at w runtimeEnv)) w
    else w in
  if skipValidation then (Js.Normal (RawObject runtimeEnv), w)
  else
    let sh := if isServer then server ++ client else client in
    match Zod.safeParse is_url sh (object_at w runtimeEnv) with
    | Zod.Failure issues =>
        (Js.Throw T3Env.invalid_error,
         log [Console.Str T3Env.invalid_label; Console.Issues issues] w)
    | Zod.Success data =>
        let '(target, w) := new_object data w in
        (Js.Normal (ProxyOver isServer target), w)
    end.

(** The loader of [env.ts] on the process environment of the world. *)
Definition load (isServer : bool) (skipValidation : bool) (w : world)
  : Js.completion config_ref * world :=
  let '(runtimeEnv, w) := new_object (Env.runtimeEnv (process_env w)) w in
  createEnv isServer Env.server Env.client runtimeEnv skipValidation true w.

End CreateEnv.

(** The config a reference stands for in a world. *)
Definition deref (w : world) (ref : config_ref) : T3Env.ResolvedConfig :=
  match ref with
  | RawObject obj => T3Env.Unvalidated (object_at w obj)
  | ProxyOver isServer target => T3Env.Validated isServer (object_at w target)
  end.

(** The outcome of a call, with the returned config read in a world. *)
Definition outcome (w : world) (r : Js.completion config_ref)
  : Js.completion T3Env.ResolvedConfig :=
  match r with
  | Js.Normal ref => Js.Normal (deref w ref)
  | Js.Throw e => Js.Throw e
  end.

End Store.

(** ** The [Dockerfile]

    The install and build stages each pick their command by testing, in
    order, which lockfile exists in the working directory. Both stages
    copy their files from the same build context, so a stage is a function
    of the set of regular files at the root of that context. *)

Module Dockerfile.

(** [[ -f name ]]. *)
Definition has (files : gset string) (name : string) : bool :=
  bool_decide (name ∈ files).

Definition lockfiles : list string :=
  [ "bun.lockb"; "pnpm-lock.yaml"; "yarn.lock"; "package-lock.json" ].

(** The command the install stage runs. *)
Definition install (files : gset string) : string :=
  if has files "bun.lockb" then "bun install --frozen-lockfile"
  else if has files "pnpm-lock.yaml" then "pnpm install --frozen-lockfile"
  else if has files "yarn.lock" then "yarn install --frozen-lockfile"
  else if has files "package-lock.json" then "npm ci"
  else "npm install".

(** The command the build stage runs. *)
Definition build (files : gset string) : string :=
  if has files "bun.lockb" then "bun run build"
  else if has files "pnpm-lock.yaml" then "pnpm run build"
  else if has files "yarn.lock" then "yarn build"
  else "npm run build".

(** The program a command line starts: its first word. *)
Fixpoint program (command : string) : string :=
  match command with
  | EmptyString => EmptyString
  | String c rest =>
      if Ascii.eqb c Ascii.Space then EmptyString else String c (program rest)
  end.

End Dockerfile.

(** ** The generators' name prompt ([plopfile])

    Both generators validate the typed name with
    [value.trim() ? true : message]. The name is a JavaScript string, a
    sequence of UTF-16 code units; [trim] removes the white space and line
    terminators of ECMAScript from both ends. *)

Module Plop.

(** ECMAScript's [WhiteSpace] and [LineTerminator] code points: TAB, LF,
    VT, FF, CR, SP, NBSP, the other space separators, LS, PS and the
    byte-order mark. *)
Definition is_whitespace (u : N) : bool :=
  bool_decide (u ∈ [9; 10; 11; 12; 13; 32; 160; 5760; 8232; 8233; 8239;
                     8287; 12288; 65279]%N) ||
  ((8192 <=? u)%N && (u <=? 8202)%N).

Fixpoint trimStart (s : list N) : list N :=
  match s with
  | [] => []
  | u :: rest => if is_whitespace u then trimStart rest else s
  end.

Definition trimEnd (s : list N) : list N :=
  reverse (trimStart (reverse s)).

Definition trim (s : list N) : list N := trimEnd (trimStart s).

(** What a [validate] callback returns: [true], or the message to show. *)
Inductive answer :=
| Accept
| Refuse (message : string).

Definition validate (message : string) (value : list N) : answer :=
  match trim value with
  | [] => Refuse message
  | _ :: _ => Accept
  end.

Definition feature_name : list N → answer :=
  validate "Feature name is required".

Definition component_name : list N → answer :=
  validate "Component name is required".

End Plop.

(** ** More sample inputs *)

Module Cases.

(** A well-formed production environment with two names the schema does
    not know. *)
Definition production_env : gmap string string :=
  {[ "NODE_ENV" := "production";
     "NEXT_PUBLIC_API_URL" := "https://api.example.com";
     "API_SECRET_KEY" := "s3cret";
     "PATH" := "/usr/bin" ]}.

(** A production environment that forgot the API URL. *)
Definition production_without_url : gmap string string :=
  {[ "NODE_ENV" := "production"; "DATABASE_URL" := "https://db.example.com" ]}.

(** The config the loader makes of [production_env] on the server. *)
Definition production_config : T3Env.ResolvedConfig :=
  T3Env.Validated true
    {[ "NODE_ENV" := "production";
       "NEXT_PUBLIC_API_URL" := "https://api.example.com";
       "API_SECRET_KEY" := "s3cret";
       "NEXT_PUBLIC_APP_NAME" := "NES App" ]}.

(** Two test environments that agree on the five declared names; the
    second also asks to skip validation. *)
Definition test_env : gmap string string :=
  {[ "NODE_ENV" := "test"; "PATH" := "/usr/bin" ]}.

Definition test_env_skipping : gmap string string :=
  {[ "NODE_ENV" := "test"; "HOME" := "/root"; "SKIP_ENV_VALIDATION" := "1" ]}.

(** An environment whose mode is ["production"] in another case. *)
Definition miscased_env : gmap string string :=
  {[ "NODE_ENV" := "Production" ]}.

(** A failure before any response arrived. *)
Definition network_error : Axios.AxiosError :=
  {| Axios.message := "Network Error";
     Axios.config := Some Sample.users_request;
     Axios.response := None |}.

End Cases.

(** * Properties *)

(** ** Truthiness *)

Section JsFacts.

Lemma truthy_false_iff (v : option string) :
  Js.truthy v = false ↔ v = None ∨ v = Some "".
Proof.
  destruct v as [s|]; simpl.
  - rewrite bool_decide_eq_false. split.
    + intros H. right. f_equal. by destruct (decide (s = "")).
    + intros [?|[= ->]]; [done|]. by intros [].
  - by split; [left|].
Qed.

Lemma truthy_string_Some (v : option string) (s : string) :
  Js.truthy_string v = Some s ↔ v = Some s ∧ s ≠ "".
Proof.
  destruct v as [s'|]; simpl.
  - case_bool_decide as H; split.
    + by intros [= ->].
    + by intros [[= ->] _].
    + done.
    + intros [[= ->] ?]. by destruct H.
  - split; [done|]. by intros [? _].
Qed.

Lemma truthy_string_None (v : option string) :
  Js.truthy_string v = None ↔ v = None ∨ v = Some "".
Proof.
  destruct v as [s'|]; simpl.
  - case_bool_decide as H; split.
    + done.
    + intros [?|[= ->]]; [done|]. by destruct H.
    + intros _. right. f_equal. by destruct (decide (s' = "")).
    + done.
  - split; [by left|done].
Qed.

End JsFacts.

(** ** What the loader sees of the raw environment *)

Section SeenFacts.
Implicit Types raw : gmap string string.

Lemma lookup_prop raw key obj j :
  Env.prop raw key obj !! j =
    if decide (key = j) then
      match raw !! key with Some v => Some v | None => obj !! j end
    else obj !! j.
Proof.
  unfold Env.prop. destruct (raw !! key) as [v|] eqn:E.
  - rewrite lookup_insert. by repeat case_decide.
  - by case_decide.
Qed.

(** The object literal holds the five declared names and nothing else. *)
Lemma lookup_runtimeEnv raw j :
  Env.runtimeEnv raw !! j =
    if bool_decide (j ∈ Env.declared) then raw !! j else None.
Proof.
  unfold Env.runtimeEnv, Env.declared. rewrite !lookup_prop, lookup_empty.
  repeat case_decide; subst; try done;
    try (case_bool_decide as Hin; [by destruct (raw !! _)|];
         exfalso; apply Hin; set_solver).
  case_bool_decide as Hin; [|done].
  set_solver.
Qed.

Lemma lookup_dropEmptyStrings (obj : gmap string string) j :
  T3Env.dropEmptyStrings obj !! j = Js.truthy_string (obj !! j).
Proof.
  unfold T3Env.dropEmptyStrings. rewrite map_lookup_filter.
  destruct (obj !! j) as [v|]; simpl; [|done].
  case_bool_decide; simpl; by case_guard.
Qed.

Lemma lookup_seen raw j :
  Env.seen raw !! j =
    if bool_decide (j ∈ Env.declared) then Js.truthy_string (raw !! j) else None.
Proof.
  unfold Env.seen. rewrite lookup_dropEmptyStrings, lookup_runtimeEnv.
  by case_bool_decide.
Qed.

(** Two raw environments that agree on the declared names give the same
    object literal. *)
Lemma runtimeEnv_agree raw1 raw2 :
  (∀ name, name ∈ Env.declared → raw1 !! name = raw2 !! name) →
  Env.runtimeEnv raw1 = Env.runtimeEnv raw2.
Proof.
  intros H. apply map_eq. intros j. rewrite !lookup_runtimeEnv.
  case_bool_decide; [by apply H|done].
Qed.

(** A blank value and a missing one look the same to the rules. *)
Lemma seen_blank raw name :
  Env.seen (<[name := ""]> raw) = Env.seen (delete name raw).
Proof.
  apply map_eq. intros j. rewrite !lookup_seen.
  case_bool_decide; [|done].
  destruct (decide (name = j)) as [->|].
  - by rewrite lookup_insert_eq, lookup_delete_eq.
  - by rewrite lookup_insert_ne, lookup_delete_ne.
Qed.

End SeenFacts.

(** ** Parsing against the rules *)

Section ZodFacts.
Variable is_url : string → bool.

(** A rejected value comes with at least one issue. *)
Lemma parse_Err_nonempty s input kinds :
  Zod.parse is_url s input = Zod.Err kinds → kinds ≠ [].
Proof.
  revert input. induction s as [checks|values|inner IH|inner IH d];
    intros input; simpl.
  - destruct input as [v|]; [|by intros [= <-]].
    destruct (omap _ checks) eqn:E; [done|]. by intros [= <-].
  - destruct input as [v|]; [|by intros [= <-]].
    case_bool_decide; [done|]. by intros [= <-].
  - destruct input; [apply IH|done].
  - destruct input; apply IH.
Qed.

(** The names on the issue list of one key: the key itself when its
    rule rejects the input, none otherwise. *)
Lemma issues_at_names input field name :
  name ∈ (Zod.issues_at is_url input field).*1 ↔
    field.1 = name ∧ ∃ kinds, Zod.parse is_url field.2 (input !! field.1) = Zod.Err kinds.
Proof.
  unfold Zod.issues_at.
  destruct (Zod.parse is_url field.2 (input !! field.1)) as [v|kinds] eqn:E.
  - simpl. split; [by intros ?%elem_of_nil|]. by intros [_ [? ?]].
  - rewrite <- list_fmap_compose. split.
    + intros (kind & -> & _)%list_elem_of_fmap. eauto.
    + intros [<- _]. apply parse_Err_nonempty in E.
      destruct kinds as [|kind kinds]; [done|]. simpl. left.
Qed.

(** The issue list of an object parse names exactly the keys of the
    shape whose rule rejects what the loader sees. *)
Lemma issues_name_violations sh raw name :
  name ∈ (sh ≫= Zod.issues_at is_url (Env.seen raw)).*1 ↔
    Env.violates is_url sh raw name = true.
Proof.
  unfold Env.violates. induction sh as [|field sh IH]; simpl.
  - split; [by intros ?%elem_of_nil|done].
  - rewrite fmap_app, elem_of_app, IH, issues_at_names, orb_true_iff,
      andb_true_iff, bool_decide_eq_true.
    split.
    + intros [[<- [kinds ->]]|?]; [by left|by right].
    + intros [[<- H]|?]; [left|by right]. split; [done|].
      destruct (Zod.parse _ _ _) as [|kinds]; [done|]. by exists kinds.
Qed.

Lemma safeParse_Failure sh input issues :
  sh ≫= Zod.issues_at is_url input = issues → issues ≠ [] →
  Zod.safeParse is_url sh input = Zod.Failure issues.
Proof. unfold Zod.safeParse. intros -> ?. by destruct issues. Qed.

End ZodFacts.

(** ** The configuration loader *)

Section LoaderFacts.
Variable is_url : string → bool.
Implicit Types raw penv : gmap string string.

(** With validation skipped the loader hands back what it sees. *)
Lemma load_in_skip isServer raw c :
  Env.load_in is_url isServer raw true c =
    (Js.Normal (T3Env.Unvalidated (Env.seen raw)), c).
Proof. done. Qed.

(** With validation on, the loader is the object parse of what it sees
    against the rules checked in its context. *)
Lemma load_in_validate isServer raw c :
  Env.load_in is_url isServer raw false c =
    match Zod.safeParse is_url (Env.checked isServer) (Env.seen raw) with
    | Zod.Failure issues =>
        (Js.Throw T3Env.invalid_error,
         c ++ [[Console.Str T3Env.invalid_label; Console.Issues issues]])
    | Zod.Success data => (Js.Normal (T3Env.Validated isServer data), c)
    end.
Proof.
  unfold Env.load_in, T3Env.createEnv, Env.checked, Env.seen. simpl.
  by destruct (Zod.safeParse _ _ _).
Qed.

(** The loader's outcome does not depend on what the console already
    holds. *)
Lemma load_in_console isServer raw skip c c' :
  (Env.load_in is_url isServer raw skip c).1 =
  (Env.load_in is_url isServer raw skip c').1.
Proof.
  destruct skip.
  - by rewrite !load_in_skip.
  - rewrite !load_in_validate. by destruct (Zod.safeParse _ _ _).
Qed.

(** One violated rule is enough for the loader to fail, with every
    violated name on the reported list. *)
Lemma load_in_invalid isServer raw c :
  (∃ name, Env.violates is_url (Env.checked isServer) raw name = true) →
  ∃ issues,
    Env.load_in is_url isServer raw false c =
      (Js.Throw T3Env.invalid_error,
       c ++ [[Console.Str T3Env.invalid_label; Console.Issues issues]]) ∧
    ∀ name, Env.violates is_url (Env.checked isServer) raw name = true ↔
            name ∈ issues.*1.
Proof.
  intros [bad Hbad].
  exists (Env.checked isServer ≫= Zod.issues_at is_url (Env.seen raw)).
  split.
  - rewrite load_in_validate.
    rewrite (safeParse_Failure is_url _ _ _ eq_refl); [done|].
    apply issues_name_violations in Hbad. intros E. rewrite E in Hbad.
    by apply elem_of_nil in Hbad.
  - intros name. by rewrite issues_name_violations.
Qed.

(** The exported [env] validates unless [SKIP_ENV_VALIDATION] holds a
    non-empty string. *)
Lemma env_validates isServer penv :
  penv !! "SKIP_ENV_VALIDATION" = None ∨
  penv !! "SKIP_ENV_VALIDATION" = Some "" →
  Env.env is_url isServer penv = Env.load_in is_url isServer penv false.
Proof.
  intros H. unfold Env.env. by rewrite (proj2 (truthy_false_iff _) H).
Qed.

(** A present [NODE_ENV] outside the three literals violates its rule. *)
Lemma NODE_ENV_violation raw v :
  raw !! "NODE_ENV" = Some v → v ≠ "" →
  v ∉ ["development"; "test"; "production"] →
  Env.violates is_url (Env.server ++ Env.client) raw "NODE_ENV" = true.
Proof.
  intros Hv Hne Hout. unfold Env.violates. simpl.
  rewrite lookup_seen, Hv.
  replace (Js.truthy_string (Some v)) with (Some v)
    by (symmetry; by apply truthy_string_Some).
  simpl. by rewrite (bool_decide_eq_false_2 _ Hout).
Qed.

(** A blank or missing optional URL passes its rule. *)
Lemma blank_API_URL_passes raw :
  Env.violates is_url (Env.server ++ Env.client)
    (<["NEXT_PUBLIC_API_URL" := ""]> raw) "NEXT_PUBLIC_API_URL" = false.
Proof.
  unfold Env.violates. simpl. by rewrite lookup_seen, lookup_insert_eq.
Qed.

End LoaderFacts.

(** ** Claims about the loader *)

(** C2, as the specification states it, fails: with validation skipped and
    an empty raw environment the loader returns the (empty) [runtimeEnv]
    object, in which [NEXT_PUBLIC_APP_NAME] is undefined, not ["NES App"]. *)
Lemma skip_validation_applies_no_default :
  Env.load Env.sample_is_url ∅ true [] = (Js.Normal (T3Env.Unvalidated ∅), []) ∧
  T3Env.get (T3Env.Unvalidated ∅) "NEXT_PUBLIC_APP_NAME" = Js.Normal None ∧
  Js.Normal None ≠ Js.Normal (Some "NES App").
Proof. split; [by vm_compute|]. split; [by vm_compute|]. by intros [=]. Qed.

(** C2, amended: for every raw environment and in either context, with
    [skipValidation] true the loader returns a config without throwing and
    without logging; each of the five declared names reads in it as its raw
    value, unchanged, when that value is present and not blank, and as
    undefined otherwise; every other name reads as undefined. No default is
    applied. *)
Theorem skip_validation_passes_raw_values
    (is_url : string → bool) (isServer : bool) (raw : gmap string string)
    (c : Console.t) :
  ∃ cfg,
    Env.load_in is_url isServer raw true c = (Js.Normal cfg, c) ∧
    ∀ name, T3Env.get cfg name =
      Js.Normal (if bool_decide (name ∈ Env.declared)
                 then Js.truthy_string (raw !! name) else None).
Proof.
  exists (T3Env.Unvalidated (Env.seen raw)). split.
  - apply load_in_skip.
  - intros name. simpl. by rewrite lookup_seen.
Qed.

(** C3: a raw environment in which a name holds the empty string is
    loaded exactly as the environment without that name, whatever the skip
    flag and context; and a blank [NEXT_PUBLIC_API_URL] does not violate
    its URL rule, whatever the URL test says of the empty string. *)
Theorem blank_value_loads_as_absent
    (is_url : string → bool) (isServer : bool) (raw : gmap string string)
    (skip : bool) (name : string) :
  Env.load_in is_url isServer (<[name := ""]> raw) skip =
    Env.load_in is_url isServer (delete name raw) skip ∧
  Env.violates is_url (Env.server ++ Env.client)
    (<["NEXT_PUBLIC_API_URL" := ""]> raw) "NEXT_PUBLIC_API_URL" = false.
Proof.
  split; [|apply blank_API_URL_passes].
  unfold Env.load_in, T3Env.createEnv. simpl.
  change (T3Env.dropEmptyStrings (Env.runtimeEnv ?r)) with (Env.seen r).
  by rewrite seen_blank.
Qed.


(** For a given skip flag, two raw environments that agree on the five
    declared names load to the same outcome. *)
Lemma load_in_agree
    (is_url : string → bool) (isServer : bool)
    (raw1 raw2 : gmap string string) (skip : bool) :
  (∀ name, name ∈ Env.declared → raw1 !! name = raw2 !! name) →
  Env.load_in is_url isServer raw1 skip = Env.load_in is_url isServer raw2 skip.
Proof.
  intros Hagree. unfold Env.load_in, Env.options.
  by rewrite (runtimeEnv_agree raw1 raw2 Hagree).
Qed.

(** ** The API client *)

Section ApiClientFacts.
Implicit Types (cfg : T3Env.ResolvedConfig) (penv : gmap string string).

(** Reading the public API URL never trips the config's getter: the
    name carries the client prefix. *)
Lemma get_API_URL cfg :
  T3Env.get cfg "NEXT_PUBLIC_API_URL" =
    Js.Normal (T3Env.fields cfg !! "NEXT_PUBLIC_API_URL").
Proof. by destruct cfg as [obj|[] data]. Qed.

Lemma getBaseURL_configured cfg penv u :
  T3Env.get cfg "NEXT_PUBLIC_API_URL" = Js.Normal (Some u) → u ≠ "" →
  ApiClient.getBaseURL cfg penv = Js.Normal u.
Proof.
  intros Hget Hu. unfold ApiClient.getBaseURL. rewrite Hget.
  by rewrite (proj2 (truthy_string_Some (Some u) u)).
Qed.

Lemma getBaseURL_unconfigured cfg penv v :
  T3Env.get cfg "NEXT_PUBLIC_API_URL" = Js.Normal v →
  v = None ∨ v = Some "" →
  ApiClient.getBaseURL cfg penv =
    if bool_decide (penv !! "NODE_ENV" = Some "production")
    then Js.Throw ApiClient.production_error
    else Js.Normal ApiClient.dev_fallback.
Proof.
  intros Hget Hv. unfold ApiClient.getBaseURL. rewrite Hget.
  by rewrite (proj2 (truthy_string_None v) Hv).
Qed.

(** Setting a header leaves every other header as it was. *)
Lemma set_header_other name value config h :
  h ≠ name →
  Axios.headers (Axios.set_header name value config) !! h =
    Axios.headers config !! h.
Proof. intros Hne. simpl. by rewrite lookup_insert_ne. Qed.

(** The request interceptor either sets [Authorization] or returns the
    config it was given. *)
Lemma request_fulfilled_cases window config :
  ApiClient.request_fulfilled window config = config ∨
  ∃ t, ApiClient.request_fulfilled window config =
         Axios.set_header "Authorization" ("Bearer " +:+ t) config.
Proof.
  unfold ApiClient.request_fulfilled. destruct window as [w|]; [|by left].
  destruct (Js.truthy_string _) as [t|]; [right; by exists t|by left].
Qed.

End ApiClientFacts.

(** ** Claims about the API client *)

(** C1: base-URL resolution has exactly three outcomes. Reading the
    public API URL from the config always yields a value; when it is a
    non-empty string, that string is the base URL; otherwise, when
    [process.env.NODE_ENV] is ["production"], construction throws the
    explicit error; otherwise the base URL is
    ["http://localhost:3000/api"]. *)
Theorem getBaseURL_three_steps
    (cfg : T3Env.ResolvedConfig) (penv : gmap string string) :
  (∃ v, T3Env.get cfg "NEXT_PUBLIC_API_URL" = Js.Normal v) ∧
  (∀ u, T3Env.get cfg "NEXT_PUBLIC_API_URL" = Js.Normal (Some u) → u ≠ "" →
        ApiClient.getBaseURL cfg penv = Js.Normal u) ∧
  (∀ v, T3Env.get cfg "NEXT_PUBLIC_API_URL" = Js.Normal v →
        v = None ∨ v = Some "" →
        penv !! "NODE_ENV" = Some "production" →
        ApiClient.getBaseURL cfg penv =
          Js.Throw {| Js.message :=
            "NEXT_PUBLIC_API_URL is required in production. Add it to your environment variables." |} ∧
        ApiClient.apiClient cfg penv = Js.Throw ApiClient.production_error) ∧
  (∀ v, T3Env.get cfg "NEXT_PUBLIC_API_URL" = Js.Normal v →
        v = None ∨ v = Some "" →
        penv !! "NODE_ENV" ≠ Some "production" →
        ApiClient.getBaseURL cfg penv = Js.Normal "http://localhost:3000/api").
Proof.
  split; [eexists; apply get_API_URL|].
  split; [intros u; apply getBaseURL_configured|].
  split.
  - intros v Hget Hv Hprod. unfold ApiClient.apiClient.
    rewrite (getBaseURL_unconfigured cfg penv v Hget Hv).
    by rewrite (bool_decide_eq_true_2 _ Hprod).
  - intros v Hget Hv Hdev.
    rewrite (getBaseURL_unconfigured cfg penv v Hget Hv).
    by rewrite (bool_decide_eq_false_2 _ Hdev).
Qed.

(** C4: in a browser whose [localStorage] holds a non-empty [auth_token],
    the request interceptor returns the config with the header
    [Authorization] set to ["Bearer "] followed by the token; without a
    [window], without the token, or with a blank token, it returns the
    config as it received it, so no [Authorization] header is added. *)
Theorem request_interceptor_bearer
    (window : option ApiClient.Window)
    (config : Axios.InternalAxiosRequestConfig) :
  (∀ w t, window = Some w → ApiClient.localStorage w !! "auth_token" = Some t →
          t ≠ "" →
          ApiClient.request_fulfilled window config =
            Axios.set_header "Authorization" ("Bearer " +:+ t) config ∧
          Axios.headers (ApiClient.request_fulfilled window config)
            !! "Authorization" = Some ("Bearer " +:+ t)) ∧
  ((window = None ∨
    ∃ w, window = Some w ∧
         (ApiClient.localStorage w !! "auth_token" = None ∨
          ApiClient.localStorage w !! "auth_token" = Some "")) →
   ApiClient.request_fulfilled window config = config).
Proof.
  split.
  - intros w t -> Ht Hne. unfold ApiClient.request_fulfilled.
    rewrite (proj2 (truthy_string_Some _ t)) by done.
    split; [done|]. simpl. by rewrite lookup_insert_eq.
  - intros [->|(w & -> & Hw)]; [done|]. unfold ApiClient.request_fulfilled.
    by rewrite (proj2 (truthy_string_None _) Hw).
Qed.

(** C5: the response interceptor's error handler rejects with the very
    error it was given, after logging exactly one line; for status 404
    that line is ["[404 Not Found] "] followed by the request URL, and the
    rejected error still carries status 404. *)
Theorem response_interceptor_repropagates
    (error : Axios.AxiosError) (c : Console.t) :
  ApiClient.response_rejected error c =
    (Axios.Rejected error, c ++ [ApiClient.response_log error]) ∧
  (∀ r, Axios.response error = Some r → Axios.status r = 404%Z →
        ApiClient.response_log error =
          [Console.Str ("[404 Not Found] " +:+
                        Js.template (Axios.config error ≫= Axios.url))] ∧
        ∃ e, (ApiClient.response_rejected error c).1 = Axios.Rejected e ∧
             Axios.status <$> Axios.response e = Some 404%Z).
Proof.
  split; [done|]. intros r Hr H404. split.
  - unfold ApiClient.response_log. by rewrite Hr; simpl; rewrite H404.
  - exists error. split; [done|]. by rewrite Hr; simpl; rewrite H404.
Qed.

(** C9: the request interceptor returns the URL, method, base URL, body
    and timeout exactly as received, and every header other than
    [Authorization] as received, whether or not it injects a token. *)
Theorem request_interceptor_frame
    (window : option ApiClient.Window)
    (config : Axios.InternalAxiosRequestConfig) :
  Axios.url (ApiClient.request_fulfilled window config) = Axios.url config ∧
  Axios.method (ApiClient.request_fulfilled window config) = Axios.method config ∧
  Axios.baseURL (ApiClient.request_fulfilled window config) = Axios.baseURL config ∧
  Axios.data (ApiClient.request_fulfilled window config) = Axios.data config ∧
  Axios.timeout (ApiClient.request_fulfilled window config) = Axios.timeout config ∧
  ∀ h, h ≠ "Authorization" →
       Axios.headers (ApiClient.request_fulfilled window config) !! h =
         Axios.headers config !! h.
Proof.
  destruct (request_fulfilled_cases window config) as [->|[t ->]].
  - done.
  - repeat (split; [done|]). intros h. apply set_header_other.
Qed.

(** Given a config, whether construction fails is decided by the raw
    [process.env.NODE_ENV] alone. For every config in which the public API
    URL is missing or blank, whatever [NODE_ENV] that config holds:
    construction throws exactly when the raw value is the string
    ["production"], and for any other raw value, or none, it yields the
    localhost fallback. *)
Lemma construction_by_raw_NODE_ENV
    (cfg : T3Env.ResolvedConfig) (penv : gmap string string)
    (v : option string) :
  T3Env.get cfg "NEXT_PUBLIC_API_URL" = Js.Normal v →
  v = None ∨ v = Some "" →
  (penv !! "NODE_ENV" = Some "production" ↔
     ApiClient.getBaseURL cfg penv = Js.Throw ApiClient.production_error) ∧
  (penv !! "NODE_ENV" ≠ Some "production" →
     ApiClient.getBaseURL cfg penv = Js.Normal "http://localhost:3000/api" ∧
     ApiClient.apiClient cfg penv =
       Js.Normal (Axios.create "http://localhost:3000/api" 10000
                    {[ "Content-Type" := "application/json" ]})).
Proof.
  intros Hget Hv. unfold ApiClient.apiClient.
  rewrite (getBaseURL_unconfigured cfg penv v Hget Hv).
  case_bool_decide as Hprod; split.
  - done.
  - by intros [].
  - split; [done|]. by intros [=].
  - done.
Qed.

(** ** The claims on concrete inputs *)

(** C1 at a config that carries an API URL, in production. *)
Lemma getBaseURL_three_steps_witness :
  ApiClient.getBaseURL
    (T3Env.Validated true {[ "NEXT_PUBLIC_API_URL" := "https://api.example.com" ]})
    {[ "NODE_ENV" := "production" ]} = Js.Normal "https://api.example.com".
Proof.
  refine (proj1 (proj2 (getBaseURL_three_steps _ _)) _ _ _).
  - reflexivity.
  - intros [=].
Defined.

(** C4 at the token [abc123]. *)
Lemma request_interceptor_bearer_witness :
  Axios.headers
    (ApiClient.request_fulfilled (Some Sample.browser_with_token)
       Sample.users_request)
    !! "Authorization" = Some "Bearer abc123".
Proof.
  refine (proj2 (proj1 (request_interceptor_bearer _ _)
                   Sample.browser_with_token "abc123" eq_refl _ _)).
  - reflexivity.
  - intros [=].
Defined.

(** C5 at a 404 response for [/users]. *)
Lemma response_interceptor_repropagates_witness :
  ApiClient.response_rejected Sample.not_found [] =
    (Axios.Rejected Sample.not_found, [[Console.Str "[404 Not Found] /users"]]).
Proof.
  destruct (response_interceptor_repropagates Sample.not_found [])
    as [Hrej Hlog].
  destruct (Hlog _ eq_refl eq_refl) as [Hline _].
  rewrite Hrej, Hline. reflexivity.
Defined.


(** * Further properties *)

(** ** Successful parses *)

Section ZodSuccess.
Variable is_url : string → bool.

(** A present value that passes its rule comes out unchanged. *)
Lemma parse_Some_Ok s x v :
  Zod.parse is_url s (Some x) = Zod.Ok v → v = Some x.
Proof.
  induction s as [checks|values|inner IH|inner IH d]; simpl.
  - destruct (omap _ checks); [by intros [= <-]|done].
  - case_bool_decide; [by intros [= <-]|done].
  - apply IH.
  - apply IH.
Qed.

(** An empty issue list means that every key of the shape parsed. *)
Lemma issues_nil_all_Ok (sh : Zod.shape) (input : gmap string string) :
  sh ≫= Zod.issues_at is_url input = [] ↔
  ∀ field, field ∈ sh → ∃ v, Zod.parse is_url field.2 (input !! field.1) = Zod.Ok v.
Proof.
  induction sh as [|f sh IH]; simpl.
  - split; [|done]. by intros _ field ?%elem_of_nil.
  - rewrite app_nil, IH. unfold Zod.issues_at at 1. split.
    + intros [Hf Hsh] field [->|Hin]%elem_of_cons; [|by apply Hsh].
      destruct (Zod.parse is_url f.2 (input !! f.1)) as [v|kinds] eqn:E; [by exists v|].
      apply parse_Err_nonempty in E. by destruct kinds.
    + intros H. split.
      * destruct (H f) as [v ->]; [left|done].
      * intros field Hin. apply H. by right.
Qed.

(** Reading a key of the parsed data, for a shape without repeated keys:
    the parsed value of the key's rule, nothing for a key outside the
    shape. *)
Lemma lookup_parsed_data (sh : Zod.shape) (input acc : gmap string string) k :
  NoDup sh.*1 →
  foldl (Zod.output_at is_url input) acc sh !! k =
    match (list_to_map sh : gmap string Zod.schema) !! k with
    | Some s =>
        match Zod.parse is_url s (input !! k) with
        | Zod.Ok (Some v) => Some v
        | _ => acc !! k
        end
    | None => acc !! k
    end.
Proof.
  revert acc. induction sh as [|[key s] sh IH]; intros acc Hnd.
  - simpl. by rewrite lookup_empty.
  - rewrite fmap_cons in Hnd. apply NoDup_cons in Hnd as [Hkey Hnd].
    cbn [foldl]. rewrite (IH _ Hnd).
    change (list_to_map ((key, s) :: sh) : gmap string Zod.schema)
      with (<[key := s]> (list_to_map sh : gmap string Zod.schema)).
    cbn [fst] in Hkey.
    destruct (decide (key = k)) as [->|Hne].
    + rewrite lookup_insert_eq.
      rewrite (not_elem_of_list_to_map_1 (M := gmap string) sh k Hkey).
      unfold Zod.output_at. simpl.
      destruct (Zod.parse is_url s (input !! k)) as [[v|]|]; [|done..].
      by rewrite lookup_insert_eq.
    + rewrite lookup_insert_ne by done.
      assert (Zod.output_at is_url input acc (key, s) !! k = acc !! k) as ->; [|done].
      unfold Zod.output_at. simpl.
      destruct (Zod.parse is_url s (input !! key)) as [[v|]|]; [|done..].
      by rewrite lookup_insert_ne.
Qed.

Lemma safeParse_Success (sh : Zod.shape) (input data : gmap string string) :
  Zod.safeParse is_url sh input = Zod.Success data ↔
  sh ≫= Zod.issues_at is_url input = [] ∧
  data = foldl (Zod.output_at is_url input) ∅ sh.
Proof.
  unfold Zod.safeParse. destruct (sh ≫= _) as [|i l].
  - split; [by intros [= <-]|by intros [_ ->]].
  - split; [done|by intros [? _]].
Qed.

End ZodSuccess.

(** ** The rules of [env.ts], one by one *)

Section RuleFacts.
Variable is_url : string → bool.

(** [z.enum(values).default(d)] accepts a present value of the
    enumeration, and a missing one when the default is of the
    enumeration. *)
Lemma parse_enum_default values d input :
  (∃ v, Zod.parse is_url (Zod.ZDefault (Zod.ZEnum values) d) input = Zod.Ok v) ↔
  default d input ∈ values.
Proof.
  destruct input as [x|]; simpl; case_bool_decide; split; eauto; try done.
  - by intros [? ?].
  - by intros [? ?].
Qed.

(** [z.string().url().optional()] accepts a missing value and a URL. *)
Lemma parse_optional_url input :
  (∃ v, Zod.parse is_url (Zod.ZOptional (Zod.ZString [Zod.Url])) input = Zod.Ok v) ↔
  ∀ u, input = Some u → is_url u = true.
Proof.
  destruct input as [x|]; simpl.
  - destruct (is_url x) eqn:E; simpl; split.
    + by intros _ u [= <-].
    + eauto.
    + by intros [? ?].
    + intros H. by rewrite (H x eq_refl) in E.
  - split; [done|eauto].
Qed.

(** [z.string().min(1).optional()] accepts a missing value and a
    non-empty string. *)
Lemma parse_optional_min1 input :
  (∃ v, Zod.parse is_url (Zod.ZOptional (Zod.ZString [Zod.Min 1])) input = Zod.Ok v) ↔
  ∀ u, input = Some u → u ≠ "".
Proof.
  destruct input as [x|]; simpl.
  - destruct x as [|a x]; simpl.
    + split; [intros [v Hv]; discriminate Hv|].
      intros H. exfalso. by apply (H "").
    + split; [intros _ u Hu; by simplify_eq|].
      intros _. eauto.
  - split; [done|eauto].
Qed.

(** [z.string().default(d)] accepts everything. *)
Lemma parse_string_default d input :
  ∃ v, Zod.parse is_url (Zod.ZDefault (Zod.ZString []) d) input = Zod.Ok v.
Proof. destruct input; simpl; eauto. Qed.

(** After a successful object parse over a shape without repeated keys,
    each key of the shape reads as the parsed value of its rule. *)
Lemma safeParse_Success_lookup (sh : Zod.shape) (input data : gmap string string)
    name s :
  NoDup sh.*1 →
  Zod.safeParse is_url sh input = Zod.Success data →
  (name, s) ∈ sh →
  ∃ v, Zod.parse is_url s (input !! name) = Zod.Ok v ∧ data !! name = v.
Proof.
  intros Hnd [Hnil ->]%safeParse_Success Hin.
  destruct (proj1 (issues_nil_all_Ok is_url sh input) Hnil _ Hin) as [v Hv].
  exists v. split; [done|]. rewrite lookup_parsed_data by done.
  rewrite (elem_of_list_to_map_1 (M := gmap string) sh name s Hnd Hin).
  simpl in Hv. rewrite Hv. by destruct v.
Qed.

Lemma safeParse_Success_outside (sh : Zod.shape) (input data : gmap string string)
    name :
  NoDup sh.*1 →
  Zod.safeParse is_url sh input = Zod.Success data →
  name ∉ sh.*1 → data !! name = None.
Proof.
  intros Hnd [_ ->]%safeParse_Success Hout.
  rewrite lookup_parsed_data by done.
  by rewrite (not_elem_of_list_to_map_1 (M := gmap string) sh name Hout).
Qed.

Lemma checked_NoDup isServer : NoDup (Env.checked isServer).*1.
Proof. destruct isServer; by apply (bool_decide_unpack _). Qed.

End RuleFacts.

(** ** When the loader succeeds *)

Section LoaderSuccess.
Variable is_url : string → bool.
Implicit Types raw penv : gmap string string.

Lemma lookup_seen_declared raw name :
  name ∈ Env.declared → Env.seen raw !! name = Js.truthy_string (raw !! name).
Proof. intros Hin. rewrite lookup_seen. by rewrite bool_decide_eq_true_2. Qed.

(** With validation on, the loader returns exactly when every checked
    rule accepts what the loader sees, and then it logs nothing. *)
Lemma load_in_succeeds isServer raw c :
  (∃ cfg c', Env.load_in is_url isServer raw false c = (Js.Normal cfg, c')) ↔
  ∀ field, field ∈ Env.checked isServer →
    ∃ v, Zod.parse is_url field.2 (Env.seen raw !! field.1) = Zod.Ok v.
Proof.
  rewrite load_in_validate, <- issues_nil_all_Ok.
  destruct (Zod.safeParse _ _ _) as [data|issues] eqn:E.
  - apply safeParse_Success in E as [-> _]. split; [done|eauto].
  - split; [by intros (? & ? & ?)|]. intros Hnil.
    unfold Zod.safeParse in E. rewrite Hnil in E. done.
Qed.

Lemma load_in_success_inv isServer raw c cfg c' :
  Env.load_in is_url isServer raw false c = (Js.Normal cfg, c') →
  c' = c ∧
  ∃ data, cfg = T3Env.Validated isServer data ∧
    Zod.safeParse is_url (Env.checked isServer) (Env.seen raw) = Zod.Success data.
Proof.
  rewrite load_in_validate.
  destruct (Zod.safeParse _ _ _) as [data|issues]; [|done].
  intros [= <- <-]. eauto.
Qed.

(** On the server every declared name can be read from a validated
    config. *)
Lemma get_server_declared data name :
  name ∈ Env.declared →
  T3Env.get (T3Env.Validated true data) name = Js.Normal (data !! name).
Proof.
  unfold Env.declared. intros Hin.
  repeat (apply elem_of_cons in Hin as [->|Hin]; [done|]).
  by apply elem_of_nil in Hin.
Qed.

End LoaderSuccess.

(** ** More about the loader *)

(** X1: with validation on, in either context, the loader returns a
    validated config, leaving the console as it was, exactly when none of
    the rules checked in that context is violated. *)
Theorem load_succeeds_iff_no_violation
    (is_url : string → bool) (isServer : bool) (raw : gmap string string)
    (c : Console.t) :
  (∀ name, Env.violates is_url (Env.checked isServer) raw name = false) ↔
  ∃ data, Env.load_in is_url isServer raw false c =
            (Js.Normal (T3Env.Validated isServer data), c).
Proof.
  split.
  - intros Hno. rewrite load_in_validate. unfold Zod.safeParse.
    destruct (Env.checked isServer ≫= _) as [|i l] eqn:E; [eauto|].
    assert (Env.violates is_url (Env.checked isServer) raw i.1 = true) as Hbad.
    { apply issues_name_violations. rewrite E. rewrite fmap_cons. left. }
    by rewrite Hno in Hbad.
  - intros [data Hload] name.
    destruct (Env.violates is_url (Env.checked isServer) raw name) eqn:E; [|done].
    destruct (load_in_invalid is_url isServer raw c) as (issues & Hthrow & _);
      [by exists name|].
    by rewrite Hthrow in Hload.
Qed.

(** X2: on the server, with validation on, there are exactly three ways
    to fail: a non-blank [NODE_ENV] outside the three literals, a non-blank
    [DATABASE_URL] that is not a URL, a non-blank [NEXT_PUBLIC_API_URL]
    that is not a URL. [API_SECRET_KEY] and [NEXT_PUBLIC_APP_NAME] can hold
    anything. *)
Theorem server_load_succeeds_iff
    (is_url : string → bool) (raw : gmap string string) (c : Console.t) :
  (∃ cfg, Env.load is_url raw false c = (Js.Normal cfg, c)) ↔
  (∀ v, raw !! "NODE_ENV" = Some v → v ≠ "" →
        v ∈ ["development"; "test"; "production"]) ∧
  (∀ u, raw !! "DATABASE_URL" = Some u → u ≠ "" → is_url u = true) ∧
  (∀ u, raw !! "NEXT_PUBLIC_API_URL" = Some u → u ≠ "" → is_url u = true).
Proof.
  transitivity
    (∃ cfg c', Env.load_in is_url true raw false c = (Js.Normal cfg, c')).
  { split; [intros [cfg H]; eauto|].
    intros (cfg & c' & H). exists cfg.
    by destruct (load_in_success_inv is_url true raw c cfg c' H) as [-> _]. }
  rewrite load_in_succeeds, <- Forall_forall.
  unfold Env.checked, Env.server, Env.client. simpl.
  rewrite !Forall_cons, Forall_nil. cbn [fst snd].
  rewrite !lookup_seen_declared by (unfold Env.declared; set_solver).
  rewrite parse_enum_default, !parse_optional_url, parse_optional_min1.
  split.
  - intros (Hmode & Hdb & _ & Hapi & _). split; [|split].
    + intros v Hv Hne. rewrite Hv in Hmode.
      by rewrite (proj2 (truthy_string_Some (Some v) v)) in Hmode.
    + intros u Hu Hne. apply Hdb. by apply truthy_string_Some.
    + intros u Hu Hne. apply Hapi. by apply truthy_string_Some.
  - intros (Hmode & Hdb & Hapi). split; [|split; [|split; [|split; [|split]]]].
    + destruct (Js.truthy_string (raw !! "NODE_ENV")) as [v|] eqn:E; simpl.
      * apply truthy_string_Some in E as [E Hne]. by apply Hmode.
      * set_solver.
    + intros u [Hu Hne]%truthy_string_Some. by apply Hdb.
    + by intros u [_ Hne]%truthy_string_Some.
    + intros u [Hu Hne]%truthy_string_Some. by apply Hapi.
    + apply parse_string_default.
    + done.
Qed.

(** X3: in a browser, with validation on, the loader fails only for a
    non-blank [NEXT_PUBLIC_API_URL] that is not a URL; the three
    server-side names are not checked there. *)
Theorem browser_load_succeeds_iff
    (is_url : string → bool) (raw : gmap string string) (c : Console.t) :
  (∃ cfg, Env.load_in is_url false raw false c = (Js.Normal cfg, c)) ↔
  ∀ u, raw !! "NEXT_PUBLIC_API_URL" = Some u → u ≠ "" → is_url u = true.
Proof.
  transitivity
    (∃ cfg c', Env.load_in is_url false raw false c = (Js.Normal cfg, c')).
  { split; [intros [cfg H]; eauto|].
    intros (cfg & c' & H). exists cfg.
    by destruct (load_in_success_inv is_url false raw c cfg c' H) as [-> _]. }
  rewrite load_in_succeeds, <- Forall_forall.
  unfold Env.checked, Env.server, Env.client. simpl.
  rewrite !Forall_cons, Forall_nil. cbn [fst snd].
  rewrite !lookup_seen_declared by (unfold Env.declared; set_solver).
  rewrite parse_optional_url. split.
  - intros (Hapi & _) u Hu Hne. apply Hapi. by apply truthy_string_Some.
  - intros Hapi. split; [|split; [apply parse_string_default|done]].
    intros u [Hu Hne]%truthy_string_Some. by apply Hapi.
Qed.

Section ValidatedFields.
Variable is_url : string → bool.
Implicit Types raw : gmap string string.

(** After a successful validated load on the server, a declared name
    reads as the parsed value of its rule on what the loader saw. *)
Lemma validated_field raw c cfg c' name s :
  Env.load is_url raw false c = (Js.Normal cfg, c') →
  (name, s) ∈ Env.checked true →
  ∃ v, Zod.parse is_url s (Js.truthy_string (raw !! name)) = Zod.Ok v ∧
       T3Env.get cfg name = Js.Normal v.
Proof.
  intros (_ & data & -> & Hparse)%load_in_success_inv Hin.
  assert (name ∈ Env.declared) as Hdecl.
  { change Env.declared with (Env.checked true).*1.
    apply list_elem_of_fmap. by exists (name, s). }
  destruct (safeParse_Success_lookup is_url _ _ _ name s
              (checked_NoDup true) Hparse Hin) as (v & Hv & Hdata).
  exists v. rewrite lookup_seen_declared in Hv by done.
  split; [done|]. by rewrite get_server_declared, Hdata.
Qed.

Lemma validated_outside raw c cfg c' name :
  Env.load is_url raw false c = (Js.Normal cfg, c') →
  name ∉ Env.declared → T3Env.fields cfg !! name = None.
Proof.
  intros (_ & data & -> & Hparse)%load_in_success_inv Hout.
  simpl.
  by rewrite (safeParse_Success_outside is_url _ _ _ name
                (checked_NoDup true) Hparse Hout).
Qed.

End ValidatedFields.

(** X4: what a validated config holds, on the server. [NODE_ENV] reads as
    its raw value, or ["development"] when that is missing or blank;
    [NEXT_PUBLIC_APP_NAME] as its raw value, or ["NES App"]; each of the
    three optional names as its raw value, or undefined; and the config has
    no own property besides the five. *)
Theorem validated_config_values
    (is_url : string → bool) (raw : gmap string string) (c c' : Console.t)
    (cfg : T3Env.ResolvedConfig) :
  Env.load is_url raw false c = (Js.Normal cfg, c') →
  T3Env.get cfg "NODE_ENV" =
    Js.Normal (Some (default "development" (Js.truthy_string (raw !! "NODE_ENV")))) ∧
  T3Env.get cfg "NEXT_PUBLIC_APP_NAME" =
    Js.Normal (Some (default "NES App"
                       (Js.truthy_string (raw !! "NEXT_PUBLIC_APP_NAME")))) ∧
  (∀ name, name ∈ ["DATABASE_URL"; "API_SECRET_KEY"; "NEXT_PUBLIC_API_URL"] →
           T3Env.get cfg name = Js.Normal (Js.truthy_string (raw !! name))) ∧
  (∀ name, name ∉ Env.declared → T3Env.fields cfg !! name = None).
Proof.
  intros Hload. repeat split.
  - destruct (validated_field is_url raw c cfg c' "NODE_ENV" _ Hload
                ltac:(left)) as (v & Hv & ->).
    destruct (Js.truthy_string _) as [x|].
    + by rewrite (parse_Some_Ok is_url _ _ _ Hv).
    + by injection Hv as <-.
  - destruct (validated_field is_url raw c cfg c' "NEXT_PUBLIC_APP_NAME" _ Hload
                ltac:(do 4 right; left)) as (v & Hv & ->).
    destruct (Js.truthy_string _) as [x|].
    + by rewrite (parse_Some_Ok is_url _ _ _ Hv).
    + by injection Hv as <-.
  - intros name Hin.
    assert (∃ ck, (name, Zod.ZOptional (Zod.ZString [ck])) ∈ Env.checked true)
      as [ck Hfield].
    { repeat (apply elem_of_cons in Hin as [->|Hin]).
      - exists Zod.Url. right; left.
      - exists (Zod.Min 1). do 2 right; left.
      - exists Zod.Url. do 3 right; left.
      - by apply elem_of_nil in Hin. }
    destruct (validated_field is_url raw c cfg c' name _ Hload Hfield)
      as (v & Hv & ->).
    destruct (Js.truthy_string _) as [x|].
    + by rewrite (parse_Some_Ok is_url _ _ _ Hv).
    + by injection Hv as <-.
  - intros name. by apply validated_outside with is_url raw c c'.
Qed.

(** X5: a validated config, on the server, satisfies the schema: its
    [NODE_ENV] is one of the three literals, and its [DATABASE_URL] and
    [NEXT_PUBLIC_API_URL], when defined, passed the URL test. *)
Theorem validated_config_conforms
    (is_url : string → bool) (raw : gmap string string) (c c' : Console.t)
    (cfg : T3Env.ResolvedConfig) :
  Env.load is_url raw false c = (Js.Normal cfg, c') →
  (∃ mode, T3Env.get cfg "NODE_ENV" = Js.Normal (Some mode) ∧
           mode ∈ ["development"; "test"; "production"]) ∧
  (∀ u, T3Env.get cfg "DATABASE_URL" = Js.Normal (Some u) → is_url u = true) ∧
  (∀ u, T3Env.get cfg "NEXT_PUBLIC_API_URL" = Js.Normal (Some u) →
        is_url u = true).
Proof.
  intros Hload. split; [|split].
  - destruct (validated_field is_url raw c cfg c' "NODE_ENV" _ Hload
                ltac:(left)) as (v & Hv & ->).
    assert (default "development" (Js.truthy_string (raw !! "NODE_ENV"))
              ∈ ["development"; "test"; "production"]) as Hmode
      by (apply (parse_enum_default is_url); eauto).
    exists (default "development" (Js.truthy_string (raw !! "NODE_ENV"))).
    split; [|done]. f_equal.
    destruct (Js.truthy_string _) as [x|].
    + by rewrite (parse_Some_Ok is_url _ _ _ Hv).
    + by injection Hv as <-.
  - destruct (validated_field is_url raw c cfg c' "DATABASE_URL" _ Hload
                ltac:(right; left)) as (v & Hv & ->).
    intros u [= ->].
    destruct (Js.truthy_string _) as [x|]; [|done].
    pose proof (parse_Some_Ok is_url _ _ _ Hv) as [= <-].
    apply (parse_optional_url is_url (Some u)); eauto.
  - destruct (validated_field is_url raw c cfg c' "NEXT_PUBLIC_API_URL" _ Hload
                ltac:(do 3 right; left)) as (v & Hv & ->).
    intros u [= ->].
    destruct (Js.truthy_string _) as [x|]; [|done].
    pose proof (parse_Some_Ok is_url _ _ _ Hv) as [= <-].
    apply (parse_optional_url is_url (Some u)); eauto.
Qed.

(** X6: the exported [env] skips validation for every non-empty value of
    [SKIP_ENV_VALIDATION], whatever it says (["1"], ["0"], ["false"]): it
    then returns what the loader sees, throws nothing and logs nothing,
    even when rules are violated. *)
Theorem any_nonblank_skip_flag_skips
    (is_url : string → bool) (isServer : bool) (penv : gmap string string)
    (c : Console.t) (v : string) :
  penv !! "SKIP_ENV_VALIDATION" = Some v → v ≠ "" →
  Env.env is_url isServer penv c =
    (Js.Normal (T3Env.Unvalidated (Env.seen penv)), c).
Proof.
  intros Hv Hne. unfold Env.env. rewrite Hv. simpl.
  rewrite bool_decide_eq_true_2 by done. apply load_in_skip.
Qed.

Lemma any_nonblank_skip_flag_skips_witness :
  Env.env Env.sample_is_url true
    (<["SKIP_ENV_VALIDATION" := "false"]> Sample.broken_env) [] =
  (Js.Normal (T3Env.Unvalidated
     (Env.seen (<["SKIP_ENV_VALIDATION" := "false"]> Sample.broken_env))), []).
Proof.
  apply (any_nonblank_skip_flag_skips _ _ _ _ "false").
  - reflexivity.
  - intros [=].
Defined.

(** ** Start-up: the loader, then the client *)

Section StartupFacts.
Variable is_url : string → bool.
Implicit Types raw penv : gmap string string.

(** In either context a validated config holds the raw public API URL
    when it is not blank, and that URL passed the URL test. *)
Lemma validated_API_URL isServer raw c cfg c' :
  Env.load_in is_url isServer raw false c = (Js.Normal cfg, c') →
  T3Env.fields cfg !! "NEXT_PUBLIC_API_URL" =
    Js.truthy_string (raw !! "NEXT_PUBLIC_API_URL") ∧
  ∀ u, Js.truthy_string (raw !! "NEXT_PUBLIC_API_URL") = Some u → is_url u = true.
Proof.
  intros (_ & data & -> & Hparse)%load_in_success_inv.
  destruct (safeParse_Success_lookup is_url _ _ _ "NEXT_PUBLIC_API_URL"
              (Zod.ZOptional (Zod.ZString [Zod.Url]))
              (checked_NoDup isServer) Hparse) as (v & Hv & Hdata).
  { destruct isServer; [do 3 right; left|left]. }
  rewrite lookup_seen_declared in Hv by (unfold Env.declared; set_solver).
  simpl. rewrite Hdata. split.
  - destruct (Js.truthy_string _) as [x|].
    + by rewrite (parse_Some_Ok is_url _ _ _ Hv).
    + by injection Hv as <-.
  - intros u Hu. apply (parse_optional_url is_url (Some u)); [|done].
    rewrite <- Hu. eauto.
Qed.

(** Start-up is the loader followed by construction. *)
Lemma init_after_load isServer penv c cfg c' :
  Env.env is_url isServer penv c = (Js.Normal cfg, c') →
  Startup.init is_url isServer penv c =
    (match ApiClient.apiClient cfg penv with
     | Js.Throw e => Js.Throw e
     | Js.Normal client => Js.Normal client
     end, c').
Proof.
  intros Henv. unfold Startup.init, mbind, eff_bind, Console.bind.
  rewrite Henv. by destruct (ApiClient.apiClient cfg penv).
Qed.

Lemma init_load_throws isServer penv c e c' :
  Env.env is_url isServer penv c = (Js.Throw e, c') →
  Startup.init is_url isServer penv c = (Js.Throw e, c').
Proof.
  intros Henv. unfold Startup.init, mbind, eff_bind, Console.bind.
  by rewrite Henv.
Qed.

Lemma init_success_inv isServer penv c client c' :
  Startup.init is_url isServer penv c = (Js.Normal client, c') →
  ∃ cfg, Env.env is_url isServer penv c = (Js.Normal cfg, c') ∧
         ApiClient.apiClient cfg penv = Js.Normal client.
Proof.
  destruct (Env.env is_url isServer penv c) as [[cfg|e] c''] eqn:Henv.
  - rewrite (init_after_load _ _ _ _ _ Henv).
    destruct (ApiClient.apiClient cfg penv) eqn:E; [|done].
    intros [= <- <-]. eauto.
  - by rewrite (init_load_throws _ _ _ _ _ Henv).
Qed.

(** Construction, by the public API URL the config holds. *)
Lemma apiClient_by_URL cfg penv :
  ApiClient.apiClient cfg penv =
    match Js.truthy_string (T3Env.fields cfg !! "NEXT_PUBLIC_API_URL") with
    | Some u =>
        Js.Normal (Axios.create u 10000 {[ "Content-Type" := "application/json" ]})
    | None =>
        if bool_decide (penv !! "NODE_ENV" = Some "production")
        then Js.Throw ApiClient.production_error
        else Js.Normal (Axios.create ApiClient.dev_fallback 10000
                          {[ "Content-Type" := "application/json" ]})
    end.
Proof.
  unfold ApiClient.apiClient, ApiClient.getBaseURL. rewrite get_API_URL.
  destruct (Js.truthy_string _); [done|]. by case_bool_decide.
Qed.

End StartupFacts.

Section StartupURL.
Variable is_url : string → bool.
Implicit Types raw penv : gmap string string.

Lemma truthy_string_idemp (v : option string) :
  Js.truthy_string (Js.truthy_string v) = Js.truthy_string v.
Proof.
  destruct v as [s|]; simpl; [|done].
  case_bool_decide as H; simpl; [|done]. by rewrite bool_decide_eq_true_2.
Qed.

(** Whatever the skip flag and the context, a config the loader returned
    holds the raw public API URL when it is not blank and nothing
    otherwise, and the loader logged nothing. *)
Lemma env_API_URL isServer penv c cfg c' :
  Env.env is_url isServer penv c = (Js.Normal cfg, c') →
  c' = c ∧
  T3Env.fields cfg !! "NEXT_PUBLIC_API_URL" =
    Js.truthy_string (penv !! "NEXT_PUBLIC_API_URL").
Proof.
  unfold Env.env. destruct (Js.truthy _).
  - rewrite load_in_skip. intros [= <- <-]. split; [done|]. simpl.
    apply lookup_seen_declared. unfold Env.declared. set_solver.
  - intros H. split.
    + by destruct (load_in_success_inv is_url _ _ _ _ _ H) as [-> _].
    + by destruct (validated_API_URL is_url _ _ _ _ _ H) as [-> _].
Qed.

End StartupURL.

(** X7: whatever the context and the skip flag, a client that starts was
    built after a silent load, with the ten-second timeout and the JSON
    content type, and its base URL is the raw [NEXT_PUBLIC_API_URL] when
    that is not blank, and otherwise the localhost fallback, which happens
    only when the raw [NODE_ENV] is not ["production"]. *)
Theorem started_client_base_url
    (is_url : string → bool) (isServer : bool) (penv : gmap string string)
    (c c' : Console.t) (client : Axios.AxiosInstance) :
  Startup.init is_url isServer penv c = (Js.Normal client, c') →
  c' = c ∧
  Axios.default_timeout client = 10000%Z ∧
  Axios.default_headers client = {[ "Content-Type" := "application/json" ]} ∧
  ((∃ u, penv !! "NEXT_PUBLIC_API_URL" = Some u ∧ u ≠ "" ∧
         Axios.default_baseURL client = u) ∨
   ((penv !! "NEXT_PUBLIC_API_URL" = None ∨
     penv !! "NEXT_PUBLIC_API_URL" = Some "") ∧
    penv !! "NODE_ENV" ≠ Some "production" ∧
    Axios.default_baseURL client = "http://localhost:3000/api")).
Proof.
  intros (cfg & Henv & Hclient)%init_success_inv.
  destruct (env_API_URL is_url _ _ _ _ _ Henv) as [-> Hurl].
  rewrite apiClient_by_URL, Hurl, truthy_string_idemp in Hclient.
  destruct (Js.truthy_string _) as [u|] eqn:E.
  - injection Hclient as <-. repeat (split; [done|]). left.
    apply truthy_string_Some in E as [? ?]. exists u. by split_and!.
  - case_bool_decide as Hprod; [done|]. injection Hclient as <-.
    repeat (split; [done|]). right. apply truthy_string_None in E.
    by split_and!.
Qed.

Lemma started_client_base_url_witness :
  (∃ u, Cases.production_env !! "NEXT_PUBLIC_API_URL" = Some u ∧ u ≠ "" ∧
        "https://api.example.com" = u) ∨
  ((Cases.production_env !! "NEXT_PUBLIC_API_URL" = None ∨
    Cases.production_env !! "NEXT_PUBLIC_API_URL" = Some "") ∧
   Cases.production_env !! "NODE_ENV" ≠ Some "production" ∧
   "https://api.example.com" = "http://localhost:3000/api").
Proof.
  refine (proj2 (proj2 (proj2
    (started_client_base_url Env.sample_is_url true Cases.production_env [] []
       (Axios.create "https://api.example.com" 10000
          {[ "Content-Type" := "application/json" ]}) _)))).
  vm_compute. reflexivity.
Defined.

(** X8: with validation on, in either context, a client never starts on a
    raw [NEXT_PUBLIC_API_URL] that fails the URL test. *)
Theorem started_client_url_is_checked
    (is_url : string → bool) (isServer : bool) (penv : gmap string string)
    (c c' : Console.t) (client : Axios.AxiosInstance) (u : string) :
  penv !! "SKIP_ENV_VALIDATION" = None ∨
  penv !! "SKIP_ENV_VALIDATION" = Some "" →
  Startup.init is_url isServer penv c = (Js.Normal client, c') →
  penv !! "NEXT_PUBLIC_API_URL" = Some u → u ≠ "" →
  is_url u = true ∧ Axios.default_baseURL client = u.
Proof.
  intros Hskip (cfg & Henv & Hclient)%init_success_inv Hu Hne.
  rewrite (env_validates is_url _ _ Hskip) in Henv.
  destruct (validated_API_URL is_url _ _ _ _ _ Henv) as [Hurl Hok].
  rewrite apiClient_by_URL, Hurl, truthy_string_idemp, Hu in Hclient.
  rewrite (proj2 (truthy_string_Some (Some u) u)) in Hclient by done.
  injection Hclient as <-. split; [|done].
  apply Hok. rewrite Hu. by apply truthy_string_Some.
Qed.

Lemma started_client_url_is_checked_witness :
  Env.sample_is_url "https://api.example.com" = true ∧
  "https://api.example.com" = "https://api.example.com".
Proof.
  refine (started_client_url_is_checked Env.sample_is_url true
            Cases.production_env [] []
            (Axios.create "https://api.example.com" 10000
               {[ "Content-Type" := "application/json" ]})
            "https://api.example.com" _ _ _ _).
  - left. reflexivity.
  - vm_compute. reflexivity.
  - reflexivity.
  - intros [=].
Defined.

(** X9: the production guard cannot be skipped. Whatever the context and
    the skip flag, once the loader has returned, a missing or blank raw
    [NEXT_PUBLIC_API_URL] together with the raw [NODE_ENV] ["production"]
    ends start-up in the explicit error, with nothing logged. *)
Theorem production_guard_always_runs
    (is_url : string → bool) (isServer : bool) (penv : gmap string string)
    (c c' : Console.t) (cfg : T3Env.ResolvedConfig) :
  Env.env is_url isServer penv c = (Js.Normal cfg, c') →
  penv !! "NEXT_PUBLIC_API_URL" = None ∨
  penv !! "NEXT_PUBLIC_API_URL" = Some "" →
  penv !! "NODE_ENV" = Some "production" →
  Startup.init is_url isServer penv c = (Js.Throw ApiClient.production_error, c).
Proof.
  intros Henv Hblank Hprod.
  rewrite (init_after_load is_url _ _ _ _ _ Henv).
  destruct (env_API_URL is_url _ _ _ _ _ Henv) as [-> Hurl].
  rewrite apiClient_by_URL, Hurl, truthy_string_idemp.
  rewrite (proj2 (truthy_string_None _) Hblank).
  by rewrite bool_decide_eq_true_2.
Qed.

Lemma production_guard_always_runs_witness :
  Startup.init Env.sample_is_url true
    (<["SKIP_ENV_VALIDATION" := "1"]> Cases.production_without_url) [] =
  (Js.Throw ApiClient.production_error, []).
Proof.
  refine (production_guard_always_runs Env.sample_is_url true _ [] []
            (T3Env.Unvalidated
               (Env.seen (<["SKIP_ENV_VALIDATION" := "1"]>
                            Cases.production_without_url))) _ _ _).
  - vm_compute. reflexivity.
  - left. reflexivity.
  - reflexivity.
Defined.

(** X10: on the server, with validation on, a non-blank raw [NODE_ENV]
    outside the three literals stops start-up in the loader: the error is
    the loader's, its report names [NODE_ENV], and the client's fallback is
    never reached. *)
Theorem unknown_mode_stops_start_up
    (is_url : string → bool) (penv : gmap string string) (c : Console.t)
    (v : string) :
  penv !! "SKIP_ENV_VALIDATION" = None ∨
  penv !! "SKIP_ENV_VALIDATION" = Some "" →
  penv !! "NODE_ENV" = Some v → v ≠ "" →
  v ∉ ["development"; "test"; "production"] →
  ∃ issues,
    Startup.init is_url true penv c =
      (Js.Throw T3Env.invalid_error,
       c ++ [[Console.Str T3Env.invalid_label; Console.Issues issues]]) ∧
    "NODE_ENV" ∈ issues.*1.
Proof.
  intros Hskip Hv Hne Hout.
  destruct (load_in_invalid is_url true penv c) as (issues & Hthrow & Hall).
  { exists "NODE_ENV". by apply NODE_ENV_violation with v. }
  exists issues. split.
  - apply init_load_throws. by rewrite (env_validates is_url _ _ Hskip).
  - apply Hall. by apply NODE_ENV_violation with v.
Qed.

Lemma unknown_mode_stops_start_up_witness :
  ∃ issues,
    Startup.init Env.sample_is_url true {[ "NODE_ENV" := "Production" ]} [] =
      (Js.Throw T3Env.invalid_error,
       [[Console.Str T3Env.invalid_label; Console.Issues issues]]) ∧
    "NODE_ENV" ∈ issues.*1.
Proof.
  refine (unknown_mode_stops_start_up Env.sample_is_url
            {[ "NODE_ENV" := "Production" ]} [] "Production" _ _ _ _).
  - left. reflexivity.
  - reflexivity.
  - intros [=].
  - intros Hin. repeat (apply elem_of_cons in Hin as [[=]|Hin]).
    by apply elem_of_nil in Hin.
Defined.

(** X11: with validation skipped, whatever the context, start-up trusts
    the raw [NEXT_PUBLIC_API_URL]: any non-blank value becomes the base
    URL, whether or not it is a URL and whatever [NODE_ENV] holds. *)
Theorem skipped_validation_trusts_raw_url
    (is_url : string → bool) (isServer : bool) (penv : gmap string string)
    (c : Console.t) (flag u : string) :
  penv !! "SKIP_ENV_VALIDATION" = Some flag → flag ≠ "" →
  penv !! "NEXT_PUBLIC_API_URL" = Some u → u ≠ "" →
  Startup.init is_url isServer penv c =
    (Js.Normal (Axios.create u 10000 {[ "Content-Type" := "application/json" ]}),
     c).
Proof.
  intros Hflag Hfne Hu Hne.
  assert (Env.env is_url isServer penv c =
            (Js.Normal (T3Env.Unvalidated (Env.seen penv)), c)) as Henv.
  { unfold Env.env. rewrite Hflag. simpl.
    rewrite bool_decide_eq_true_2 by done. apply load_in_skip. }
  rewrite (init_after_load is_url _ _ _ _ _ Henv).
  destruct (env_API_URL is_url _ _ _ _ _ Henv) as [_ Hurl].
  rewrite apiClient_by_URL, Hurl, truthy_string_idemp, Hu.
  by rewrite (proj2 (truthy_string_Some (Some u) u)).
Qed.

Lemma skipped_validation_trusts_raw_url_witness :
  Startup.init Env.sample_is_url true
    (<["SKIP_ENV_VALIDATION" := "1"]> Sample.broken_env) [] =
  (Js.Normal (Axios.create "localhost" 10000
                {[ "Content-Type" := "application/json" ]}), []).
Proof.
  refine (skipped_validation_trusts_raw_url Env.sample_is_url true _ []
            "1" "localhost" _ _ _ _).
  - reflexivity.
  - intros [=].
  - reflexivity.
  - intros [=].
Defined.

(** ** More about the API client *)

(** X12: construction has one way to fail and none to yield an unusable
    client. It throws exactly when the config's public API URL is missing
    or blank and the raw [NODE_ENV] is ["production"], and then the error
    is the explicit one; a client that is constructed has a non-empty base
    URL, the ten-second timeout and the JSON content type among its
    default headers, next to the [Accept] header of the library's common
    defaults. *)
Theorem construction_outcome
    (cfg : T3Env.ResolvedConfig) (penv : gmap string string) :
  ((∃ e, ApiClient.apiClient cfg penv = Js.Throw e) ↔
     (T3Env.get cfg "NEXT_PUBLIC_API_URL" = Js.Normal None ∨
      T3Env.get cfg "NEXT_PUBLIC_API_URL" = Js.Normal (Some "")) ∧
     penv !! "NODE_ENV" = Some "production") ∧
  (∀ e, ApiClient.apiClient cfg penv = Js.Throw e →
        e = ApiClient.production_error) ∧
  (∀ client, ApiClient.apiClient cfg penv = Js.Normal client →
     Axios.default_baseURL client ≠ "" ∧
     Axios.default_timeout client = 10000%Z ∧
     Axios.default_headers client !! "Content-Type" = Some "application/json" ∧
     is_Some (Axios.default_headers_common client !! "Accept")).
Proof.
  rewrite apiClient_by_URL, get_API_URL.
  destruct (Js.truthy_string _) as [u|] eqn:E.
  - apply truthy_string_Some in E as [E Hne]. rewrite E. split; [|split].
    + split; [by intros [? ?]|]. intros [[[=]|[= ->]] _]. done.
    + done.
    + by intros client [= <-].
  - apply truthy_string_None in E. case_bool_decide as Hprod; split_and!.
    + split; [|eauto]. intros _. split; [|done]. by destruct E as [->| ->]; [left|right].
    + by intros e [= <-].
    + done.
    + split; [by intros [? ?]|]. by intros [_ ?].
    + done.
    + by intros client [= <-].
Qed.

(** X13: the request interceptor is idempotent: a config that already
    went through it, as on a retry of [error.config], comes out of a second
    pass unchanged. *)
Theorem request_interceptor_idempotent
    (window : option ApiClient.Window)
    (config : Axios.InternalAxiosRequestConfig) :
  ApiClient.request_fulfilled window
    (ApiClient.request_fulfilled window config) =
  ApiClient.request_fulfilled window config.
Proof.
  unfold ApiClient.request_fulfilled. destruct window as [w|]; [|done].
  destruct (Js.truthy_string _) as [t|]; [|done].
  unfold Axios.set_header. simpl. by rewrite insert_insert_eq.
Qed.

(** X14: a failure that is none of 401, 403, 404 and 500, a failure
    without any response among them, is logged as
    ["[API Error <status>] <url>"] together with the error's message, a
    missing status or URL printing as ["undefined"]; and it is rejected
    with the same error like every other. *)
Theorem uncategorised_failure_log
    (error : Axios.AxiosError) (c : Console.t) :
  Axios.status <$> Axios.response error ∉
    [Some 401%Z; Some 403%Z; Some 404%Z; Some 500%Z] →
  ApiClient.response_rejected error c =
    (Axios.Rejected error,
     c ++ [[Console.Str
              ("[API Error " +:+
               Js.template_number (Axios.status <$> Axios.response error) +:+
               "] " +:+ Js.template (Axios.config error ≫= Axios.url));
            Console.Str (Axios.message error)]]) ∧
  (Axios.response error = None →
   Js.template_number (Axios.status <$> Axios.response error) = "undefined") ∧
  (Axios.config error = None →
   Js.template (Axios.config error ≫= Axios.url) = "undefined").
Proof.
  intros Hout. split; [|split].
  - unfold ApiClient.response_rejected, ApiClient.response_log.
    by rewrite !bool_decide_eq_false_2
      by (intros H; apply Hout; rewrite H; set_solver).
  - by intros ->.
  - by intros ->.
Qed.

Lemma uncategorised_failure_log_witness :
  ApiClient.response_rejected Cases.network_error [] =
  (Axios.Rejected Cases.network_error,
   [[Console.Str "[API Error undefined] /users"; Console.Str "Network Error"]]).
Proof.
  refine (proj1 (uncategorised_failure_log Cases.network_error [] _)).
  intros Hin. repeat (apply elem_of_cons in Hin as [[=]|Hin]).
  by apply elem_of_nil in Hin.
Defined.

(** ** The [Dockerfile] stages *)

(** X15: the build stage runs the package manager the install stage
    installed with, for every set of files in the build context. *)
Theorem build_uses_install_manager (files : gset string) :
  Dockerfile.program (Dockerfile.build files) =
  Dockerfile.program (Dockerfile.install files).
Proof.
  unfold Dockerfile.build, Dockerfile.install.
  repeat (destruct (Dockerfile.has files _); [reflexivity|]).
  reflexivity.
Qed.

(** X16: the install stage never resolves versions afresh while a
    lockfile exists: it runs plain [npm install] exactly when none of the
    four lockfiles is in the build context, and otherwise one of the four
    lockfile-exact installs. *)
Theorem install_respects_lockfiles (files : gset string) :
  (Dockerfile.install files = "npm install" ↔
     ∀ lockfile, lockfile ∈ Dockerfile.lockfiles → lockfile ∉ files) ∧
  (Dockerfile.install files ∈
     [ "bun install --frozen-lockfile"; "pnpm install --frozen-lockfile";
       "yarn install --frozen-lockfile"; "npm ci" ] ↔
     ∃ lockfile, lockfile ∈ Dockerfile.lockfiles ∧ lockfile ∈ files).
Proof.
  assert ((∀ lockfile, lockfile ∈ Dockerfile.lockfiles → lockfile ∉ files) ↔
          ("bun.lockb" ∉ files) ∧ ("pnpm-lock.yaml" ∉ files) ∧
          ("yarn.lock" ∉ files) ∧ ("package-lock.json" ∉ files)) as ->.
  { unfold Dockerfile.lockfiles.
    rewrite <- Forall_forall, !Forall_cons, Forall_nil. tauto. }
  assert ((∃ lockfile, lockfile ∈ Dockerfile.lockfiles ∧ lockfile ∈ files) ↔
          ("bun.lockb" ∈ files) ∨ ("pnpm-lock.yaml" ∈ files) ∨
          ("yarn.lock" ∈ files) ∨ ("package-lock.json" ∈ files)) as ->.
  { unfold Dockerfile.lockfiles.
    rewrite <- Exists_exists, !Exists_cons, Exists_nil. tauto. }
  rewrite !elem_of_cons, elem_of_nil.
  unfold Dockerfile.install, Dockerfile.has.
  repeat case_bool_decide; (split; split); intros; try done; try tauto;
    repeat match goal with
           | H : _ ∨ _ |- _ => destruct H
           | H : _ ∧ _ |- _ => destruct H
           end; done.
Qed.

(** ** The generators' name prompt *)

Section TrimFacts.

Lemma trimStart_head (s : list N) :
  Plop.trimStart s = [] ∨
  ∃ u rest, Plop.trimStart s = u :: rest ∧ Plop.is_whitespace u = false.
Proof.
  induction s as [|u s IH]; simpl; [by left|].
  destruct (Plop.is_whitespace u) eqn:E; [done|]. right. eauto.
Qed.

Lemma trimStart_nil (s : list N) :
  Plop.trimStart s = [] ↔ Forall (λ u, Plop.is_whitespace u = true) s.
Proof.
  induction s as [|u s IH]; simpl; [done|].
  rewrite Forall_cons. destruct (Plop.is_whitespace u); [|split].
  - rewrite IH. split; [done|]. by intros [_ ?].
  - done.
  - by intros [? _].
Qed.

(** Trimming leaves nothing exactly when the string is all white space. *)
Lemma trim_nil (s : list N) :
  Plop.trim s = [] ↔ Forall (λ u, Plop.is_whitespace u = true) s.
Proof.
  unfold Plop.trim, Plop.trimEnd.
  rewrite <- (reverse_nil (A := N)).
  rewrite (inj_iff reverse), trimStart_nil, Forall_reverse.
  split.
  - intros Hall. apply trimStart_nil.
    destruct (trimStart_head s) as [?|(u & rest & Hs & Hu)]; [done|].
    rewrite Hs in Hall. apply Forall_cons in Hall as [Hws _]. congruence.
  - intros Hall. apply trimStart_nil in Hall. by rewrite Hall.
Qed.

End TrimFacts.

(** X17: the name prompt of both generators accepts a name exactly when
    it holds a code unit that is not white space; the empty name and a
    name of spaces, tabs, line breaks or no-break spaces only are refused
    with the generator's message. *)
Theorem name_prompt_accepts_iff (message : string) (value : list N) :
  (Plop.validate message value = Plop.Accept ↔
     ∃ u, u ∈ value ∧ Plop.is_whitespace u = false) ∧
  (Plop.validate message value = Plop.Refuse message ↔
     ∀ u, u ∈ value → Plop.is_whitespace u = true).
Proof.
  rewrite <- Forall_forall, <- trim_nil. unfold Plop.validate.
  destruct (Plop.trim value) as [|u rest] eqn:E.
  - split; [|done]. split; [done|]. intros (u & Hin & Hu).
    apply trim_nil in E. rewrite Forall_forall in E.
    rewrite (E u Hin) in Hu. done.
  - split; [|done]. split; [|done]. intros _.
    destruct (Forall_Exists_dec (λ u, Plop.is_whitespace u = true)
                (λ u, Plop.is_whitespace u = false)
                (λ u, sumbool_of_bool (Plop.is_whitespace u)) value)
      as [Hall|Hsome].
    + apply trim_nil in Hall. by rewrite Hall in E.
    + by apply Exists_exists in Hsome.
Qed.

(** ** What start-up depends on *)

Section StartupInputs.
Variable is_url : string → bool.
Implicit Types penv : gmap string string.

Lemma apiClient_NODE_ENV cfg penv1 penv2 :
  penv1 !! "NODE_ENV" = penv2 !! "NODE_ENV" →
  ApiClient.apiClient cfg penv1 = ApiClient.apiClient cfg penv2.
Proof. intros H. by rewrite !apiClient_by_URL, H. Qed.

Lemma env_agree isServer penv1 penv2 :
  (∀ name, name ∈ "SKIP_ENV_VALIDATION" :: Env.declared →
           penv1 !! name = penv2 !! name) →
  Env.env is_url isServer penv1 = Env.env is_url isServer penv2.
Proof.
  intros Hagree. unfold Env.env, Env.load_in, Env.options.
  rewrite (Hagree "SKIP_ENV_VALIDATION") by left.
  rewrite (runtimeEnv_agree penv1 penv2); [done|].
  intros name Hin. apply Hagree. by right.
Qed.

End StartupInputs.

(** X18: the exported [env] and the whole start-up read six names of the
    process environment and no other: the five declared ones and
    [SKIP_ENV_VALIDATION]. Two process environments that agree on these
    six end in the same config, the same client or the same error, and
    the same console. *)
Theorem start_up_reads_six_names
    (is_url : string → bool) (isServer : bool)
    (penv1 penv2 : gmap string string) (c : Console.t) :
  (∀ name, name ∈ "SKIP_ENV_VALIDATION" :: Env.declared →
           penv1 !! name = penv2 !! name) →
  Env.env is_url isServer penv1 c = Env.env is_url isServer penv2 c ∧
  Startup.init is_url isServer penv1 c = Startup.init is_url isServer penv2 c.
Proof.
  intros Hagree.
  pose proof (env_agree is_url isServer penv1 penv2 Hagree) as Henv.
  split; [by rewrite Henv|].
  unfold Startup.init, mbind, eff_bind, Console.bind. rewrite Henv.
  destruct (Env.env is_url isServer penv2 c) as [[cfg|e] c']; [|done].
  rewrite (apiClient_NODE_ENV cfg penv1 penv2); [done|].
  apply Hagree. unfold Env.declared. set_solver.
Qed.

Lemma start_up_reads_six_names_witness :
  Env.env Env.sample_is_url true Cases.production_env [] =
    Env.env Env.sample_is_url true (delete "PATH" Cases.production_env) [] ∧
  Startup.init Env.sample_is_url true Cases.production_env [] =
    Startup.init Env.sample_is_url true (delete "PATH" Cases.production_env) [].
Proof.
  apply start_up_reads_six_names.
  intros name Hin. unfold Env.declared in Hin.
  repeat (apply elem_of_cons in Hin as [->|Hin]; [vm_compute; reflexivity|]).
  by apply elem_of_nil in Hin.
Defined.

(** ** The loader's extras on concrete inputs *)

Lemma validated_config_values_witness :
  T3Env.get Cases.production_config "NEXT_PUBLIC_APP_NAME" =
    Js.Normal (Some (default "NES App"
      (Js.truthy_string (Cases.production_env !! "NEXT_PUBLIC_APP_NAME")))).
Proof.
  refine (proj1 (proj2 (validated_config_values Env.sample_is_url
                          Cases.production_env [] [] Cases.production_config _))).
  vm_compute. reflexivity.
Defined.

Lemma validated_config_conforms_witness :
  ∃ mode, T3Env.get Cases.production_config "NODE_ENV" = Js.Normal (Some mode) ∧
          mode ∈ ["development"; "test"; "production"].
Proof.
  refine (proj1 (validated_config_conforms Env.sample_is_url
                   Cases.production_env [] [] Cases.production_config _)).
  vm_compute. reflexivity.
Defined.

(** * The loader and its state *)

Section StoreFacts.
Variable is_url : string → bool.

Lemma lookup_snoc {A} (l : list A) (x : A) : (l ++ [x]) !! length l = Some x.
Proof. by apply list_lookup_middle. Qed.

Lemma lookup_snoc2 {A} (l : list A) (x y : A) :
  (l ++ [x; y]) !! S (length l) = Some y.
Proof.
  rewrite lookup_app_r by lia. by replace (S (length l) - length l) with 1 by lia.
Qed.

Lemma insert_snoc {A} (l : list A) (x y : A) :
  <[length l := y]> (l ++ [x]) = l ++ [y].
Proof.
  rewrite insert_app_r_alt by done. by rewrite Nat.sub_diag.
Qed.

Lemma object_at_old (w : Store.world) objs' console' obj :
  obj < length (Store.objects w) →
  Store.object_at
    {| Store.process_env := Store.process_env w;
       Store.objects := Store.objects w ++ objs';
       Store.console := console' |} obj =
  Store.object_at w obj.
Proof. intros Hlt. unfold Store.object_at. simpl. by rewrite lookup_app_l. Qed.

(** One call of the loader, step by step: it allocates the literal,
    cleans it in place, and either returns it, or reports and throws, or
    allocates the parsed data and returns a proxy over it. *)
Lemma load_eq isServer skip (w : Store.world) :
  Store.load is_url isServer skip w =
    if skip then
      (Js.Normal (Store.RawObject (length (Store.objects w))),
       {| Store.process_env := Store.process_env w;
          Store.objects := Store.objects w ++ [Env.seen (Store.process_env w)];
          Store.console := Store.console w |})
    else
      match Zod.safeParse is_url (Env.checked isServer)
              (Env.seen (Store.process_env w)) with
      | Zod.Failure issues =>
          (Js.Throw T3Env.invalid_error,
           {| Store.process_env := Store.process_env w;
              Store.objects :=
                Store.objects w ++ [Env.seen (Store.process_env w)];
              Store.console :=
                Store.console w ++
                [[Console.Str T3Env.invalid_label; Console.Issues issues]] |})
      | Zod.Success data =>
          (Js.Normal (Store.ProxyOver isServer (S (length (Store.objects w)))),
           {| Store.process_env := Store.process_env w;
              Store.objects :=
                Store.objects w ++ [Env.seen (Store.process_env w); data];
              Store.console := Store.console w |})
      end.
Proof.
  unfold Store.load, Store.createEnv, Store.new_object, Store.write,
    Store.log, Store.object_at, Env.checked, Env.seen.
  cbn [Store.process_env Store.objects Store.console fst snd].
  rewrite insert_snoc, !lookup_snoc. cbn [default id].
  destruct skip; [done|].
  destruct (Zod.safeParse _ _ _); [|done].
  rewrite length_app, Nat.add_1_r.
  by rewrite <- (app_assoc (Store.objects w) [_] [data]).
Qed.

End StoreFacts.

Section StoreIdempotence.
Variable is_url : string → bool.

Lemma dropEmptyStrings_idemp (obj : gmap string string) :
  T3Env.dropEmptyStrings (T3Env.dropEmptyStrings obj) = T3Env.dropEmptyStrings obj.
Proof.
  apply map_eq. intros j. rewrite !lookup_dropEmptyStrings.
  apply truthy_string_idemp.
Qed.

(** [createEnv] handed the same [runtimeEnv] object a second time, after
    its first call has deleted the blank properties of that object in
    place, ends as the first call did. *)
Lemma createEnv_same_object_twice isServer skip (w : Store.world) runtimeEnv :
  runtimeEnv < length (Store.objects w) →
  Store.outcome
    (Store.createEnv is_url isServer Env.server Env.client runtimeEnv skip true
       (Store.createEnv is_url isServer Env.server Env.client runtimeEnv skip
          true w).2).2
    (Store.createEnv is_url isServer Env.server Env.client runtimeEnv skip true
       (Store.createEnv is_url isServer Env.server Env.client runtimeEnv skip
          true w).2).1 =
  Store.outcome
    (Store.createEnv is_url isServer Env.server Env.client runtimeEnv skip
       true w).2
    (Store.createEnv is_url isServer Env.server Env.client runtimeEnv skip
       true w).1.
Proof.
  intros Hlt. destruct w as [penv objs con]. cbn [Store.objects] in Hlt.
  unfold Store.createEnv, Store.write, Store.log, Store.new_object,
    Store.outcome, Store.deref, Store.object_at.
  set (cleaned := T3Env.dropEmptyStrings (default ∅ (objs !! runtimeEnv))).
  assert (T3Env.dropEmptyStrings cleaned = cleaned) as Hclean
    by apply dropEmptyStrings_idemp.
  assert (<[runtimeEnv := cleaned]> objs !! runtimeEnv = Some cleaned) as Hread
    by (by apply list_lookup_insert_eq).
  assert (∀ more, (<[runtimeEnv := cleaned]> objs ++ more) !! runtimeEnv =
                  Some cleaned) as Hread'.
  { intros more. rewrite lookup_app_l by (by rewrite length_insert). done. }
  assert (∀ more, <[runtimeEnv := cleaned]>
                    (<[runtimeEnv := cleaned]> objs ++ more) =
                  <[runtimeEnv := cleaned]> objs ++ more) as Hwrite.
  { intros more. rewrite insert_app_l by (by rewrite length_insert).
    by rewrite list_insert_insert_eq. }
  destruct skip; cbn [Store.objects Store.process_env Store.console snd fst];
    fold cleaned.
  - rewrite Hread. cbn [default id]. rewrite Hclean.
    by rewrite list_insert_insert_eq, Hread.
  - rewrite Hread. cbn [default id].
    destruct (Zod.safeParse is_url _ cleaned) as [data|issues] eqn:E;
      cbn [Store.objects Store.process_env Store.console snd fst];
      fold cleaned.
    + rewrite Hread'. cbn [default id]. rewrite Hclean, Hwrite, Hread'.
      cbn [default id]. rewrite E.
      cbn [Store.objects Store.process_env Store.console snd fst].
      by rewrite !lookup_snoc.
    + rewrite Hread. cbn [default id]. rewrite Hclean, list_insert_insert_eq, Hread.
      cbn [default id]. by rewrite E.
Qed.

End StoreIdempotence.

(** C8: the loader run twice in a row, from any state of the process
    (its environment, the objects allocated so far, the console) and with
    either skip flag, leaves the process environment as it found it, and
    the two calls end alike: the same error, or two configs that are equal
    property for property. The second call does not disturb the config of
    the first, and each call ends as the loader of the raw environment
    does. *)
Theorem repeated_load_equal_configs
    (is_url : string → bool) (isServer skip : bool) (w : Store.world) :
  let first := Store.load is_url isServer skip w in
  let second := Store.load is_url isServer skip first.2 in
  Store.process_env second.2 = Store.process_env w ∧
  Store.outcome second.2 second.1 = Store.outcome second.2 first.1 ∧
  Store.outcome second.2 first.1 = Store.outcome first.2 first.1 ∧
  Store.outcome first.2 first.1 =
    (Env.load_in is_url isServer (Store.process_env w) skip
       (Store.console w)).1 ∧
  ∀ obj, obj < length (Store.objects w) →
         Store.object_at second.2 obj = Store.object_at w obj.
Proof.
  intros first second. subst first second. rewrite !load_eq.
  destruct skip.
  - cbn [fst snd Store.process_env Store.objects Store.console].
    rewrite load_in_skip.
    unfold Store.outcome, Store.deref, Store.object_at. cbn [Store.objects fst].
    rewrite lookup_snoc.
    rewrite (lookup_app_l (_ ++ [_])) by (rewrite length_app; simpl; lia).
    rewrite lookup_snoc. cbn [default id]. split_and!; try done.
    intros obj Hlt. rewrite <- app_assoc. by rewrite lookup_app_l.
  - rewrite load_in_validate.
    destruct (Zod.safeParse is_url (Env.checked isServer)
                (Env.seen (Store.process_env w))) as [data|issues] eqn:E;
      cbn [fst snd Store.process_env Store.objects Store.console]; rewrite E;
      cbn [fst snd Store.process_env Store.objects Store.console].
    + unfold Store.outcome, Store.deref, Store.object_at. cbn [Store.objects].
      rewrite !lookup_snoc2.
      rewrite (lookup_app_l (_ ++ [_; _])) by (rewrite length_app; simpl; lia).
      rewrite lookup_snoc2. cbn [default id]. split_and!; try done.
      intros obj Hlt. rewrite <- !app_assoc. by rewrite lookup_app_l.
    + split_and!; try done.
      intros obj Hlt. unfold Store.object_at. cbn [Store.objects].
      rewrite <- !app_assoc. by rewrite lookup_app_l.
Qed.

(** * The claims at the exported loader and at start-up *)

(** C7, as the specification states it, fails at the exported loader: two
    process environments that agree on the five declared names and differ
    in [SKIP_ENV_VALIDATION], which the schema does not declare, end
    differently, one in a validated config with its defaults, the other in
    the unvalidated object. *)
Lemma five_names_do_not_decide_env :
  Forall (λ name, Cases.test_env !! name = Cases.test_env_skipping !! name)
    Env.declared ∧
  (Env.env Env.sample_is_url true Cases.test_env []).1 ≠
  (Env.env Env.sample_is_url true Cases.test_env_skipping []).1.
Proof.
  split.
  - unfold Env.declared. repeat constructor.
  - intros H. vm_compute in H. discriminate H.
Qed.

(** C7, amended: two process environments that agree on the five declared
    names and on [SKIP_ENV_VALIDATION] load to the same outcome, whatever
    else they hold; and for a given skip flag, agreement on the five
    declared names is enough. *)
Theorem loader_reads_six_names
    (is_url : string → bool) (isServer : bool)
    (penv1 penv2 : gmap string string) :
  ((∀ name, name ∈ "SKIP_ENV_VALIDATION" :: Env.declared →
            penv1 !! name = penv2 !! name) →
   Env.env is_url isServer penv1 = Env.env is_url isServer penv2) ∧
  (∀ skip,
     (∀ name, name ∈ Env.declared → penv1 !! name = penv2 !! name) →
     Env.load_in is_url isServer penv1 skip =
     Env.load_in is_url isServer penv2 skip).
Proof.
  split.
  - apply env_agree.
  - intros skip. apply load_in_agree.
Qed.

Lemma loader_reads_six_names_witness :
  Env.env Env.sample_is_url true Cases.test_env_skipping =
  Env.env Env.sample_is_url true
    (<["PATH" := "/bin"]> (delete "HOME" Cases.test_env_skipping)).
Proof.
  apply (proj1 (loader_reads_six_names Env.sample_is_url true _ _)).
  intros name Hin. unfold Env.declared in Hin.
  repeat (apply elem_of_cons in Hin as [->|Hin]; [vm_compute; reflexivity|]).
  by apply elem_of_nil in Hin.
Defined.

(** C10, as the specification states it, fails: with no public API URL and
    the raw [NODE_ENV] ["Production"], which is not ["production"],
    start-up on the server does not reach the fallback; it ends in the
    loader's error. *)
Lemma miscased_mode_fails_in_the_loader :
  Cases.miscased_env !! "NEXT_PUBLIC_API_URL" = None ∧
  Cases.miscased_env !! "NODE_ENV" ≠ Some "production" ∧
  (Startup.init Env.sample_is_url true Cases.miscased_env []).1 =
    Js.Throw T3Env.invalid_error.
Proof.
  split; [reflexivity|]. split; [by intros [=]|]. vm_compute. reflexivity.
Qed.

(** C10, amended: production mode is the raw [process.env.NODE_ENV] being
    the string ["production"], whatever the config holds. Once the loader
    has returned a config, in any context and with any skip flag, and the
    raw public API URL is missing or blank: start-up throws the explicit
    error exactly when the raw [NODE_ENV] is ["production"], and for any
    other raw value, or none, the client is built on the localhost
    fallback. For every config with a missing or blank URL, whatever
    [NODE_ENV] it holds, [getBaseURL] throws exactly when the raw value is
    ["production"]. *)
Theorem fallback_once_the_loader_returned
    (is_url : string → bool) (isServer : bool) (penv : gmap string string)
    (c c' : Console.t) (cfg : T3Env.ResolvedConfig) :
  Env.env is_url isServer penv c = (Js.Normal cfg, c') →
  penv !! "NEXT_PUBLIC_API_URL" = None ∨
  penv !! "NEXT_PUBLIC_API_URL" = Some "" →
  (penv !! "NODE_ENV" = Some "production" ↔
     Startup.init is_url isServer penv c =
       (Js.Throw ApiClient.production_error, c)) ∧
  (penv !! "NODE_ENV" ≠ Some "production" →
     Startup.init is_url isServer penv c =
       (Js.Normal (Axios.create "http://localhost:3000/api" 10000
                     {[ "Content-Type" := "application/json" ]}), c)) ∧
  (∀ cfg' v, T3Env.get cfg' "NEXT_PUBLIC_API_URL" = Js.Normal v →
             v = None ∨ v = Some "" →
             (penv !! "NODE_ENV" = Some "production" ↔
                ApiClient.getBaseURL cfg' penv =
                  Js.Throw ApiClient.production_error)).
Proof.
  intros Henv Hblank.
  rewrite (init_after_load is_url _ _ _ _ _ Henv).
  destruct (env_API_URL is_url _ _ _ _ _ Henv) as [-> Hurl].
  rewrite apiClient_by_URL, Hurl, truthy_string_idemp.
  rewrite (proj2 (truthy_string_None _) Hblank).
  split_and!.
  - case_bool_decide as Hprod; split; done.
  - intros Hdev. by rewrite bool_decide_eq_false_2.
  - intros cfg' v Hget Hv.
    apply (construction_by_raw_NODE_ENV cfg' penv v Hget Hv).
Qed.

Lemma fallback_once_the_loader_returned_witness :
  Startup.init Env.sample_is_url false Cases.miscased_env [] =
  (Js.Normal (Axios.create "http://localhost:3000/api" 10000
                {[ "Content-Type" := "application/json" ]}), []).
Proof.
  refine (proj1 (proj2 (fallback_once_the_loader_returned Env.sample_is_url
            false Cases.miscased_env [] []
            (T3Env.Validated false {[ "NEXT_PUBLIC_APP_NAME" := "NES App" ]})
            _ _)) _).
  - vm_compute. reflexivity.
  - left. reflexivity.
  - intros [=].
Defined.
